(** * trollius.coroutines: a shallow embedding and its verified properties

    The module under study is [trollius/coroutines.py]: the [Return]
    termination signal, the [From] delegation tag, the [CoroWrapper] debug
    proxy, the [coroutine] decorator and the two classifiers
    [iscoroutinefunction] and [iscoroutine].

    Python objects with identity and mutable state (generator objects,
    [CoroWrapper] instances, the logging sink, the module global [_DEBUG])
    live in an explicit [world]; code that reads or mutates them is written
    in a state-and-exception monad [M]. *)

From Stdlib Require Import ZArith Ascii String List Bool Lia.
From stdpp Require Import base list strings gmap.

Local Open Scope Z_scope.
Local Open Scope string_scope.
Local Open Scope list_scope.

(** ** Python values *)

(** References into the object tables of the [world]. *)
Definition ref := nat.

(** The objects the module inspects.  Objects with mutable state are
    references; [FromWrapper] is a one-slot object whose slot is written in
    [__init__] only, and is kept by value. *)
#[warnings="-register-all"]
Inductive object : Type :=
| VNone
| VBool (b : bool)
| VInt (n : Z)
| VStr (s : string)
| VTuple (items : list object)
| VFuture (r : ref)               (* instance of futures.Future *)
| VGenerator (r : ref)            (* instance of types.GeneratorType *)
| VCoroWrapper (r : ref)          (* instance of CoroWrapper *)
| VAsyncioCoroWrapper (gen : ref) (* instance of asyncio.tasks.CoroWrapper
                                     around the generator gen *)
| VFromWrapper (obj : object)      (* instance of FromWrapper, slot obj *)
| VObject (cls : string) (r : ref) (* instance of any other class *).

(** Exceptions.  [StopIteration v] is [StopIteration(v)], whose [.value] is
    [v]; [ReturnExc] is an instance of the class [Return] of line 47, a
    subclass of [StopIteration] with the attributes [value] and [raised]. *)
Inductive exn : Type :=
| StopIteration (value : object)
| ReturnExc (value : object) (raised : bool)
| GeneratorExit
| TypeError (msg : string)
| ValueError (msg : string)
| RuntimeError (msg : string)
| AttributeError (msg : string)
| AssertionError (payload : object)
| Exception (cls : string) (args : list object).

(** [isinstance(e, StopIteration)] *)
Definition isinstance_StopIteration (e : exn) : bool :=
  match e with
  | StopIteration _ | ReturnExc _ _ => true
  | _ => false
  end.

(** [e.value] for the exceptions that have the attribute. *)
Definition exn_value (e : exn) : option object :=
  match e with
  | StopIteration v => Some v
  | ReturnExc v _ => Some v
  | _ => None
  end.

(** A call either raises or returns. *)
Definition result (A : Type) : Type := exn + A.

(** Positional and keyword arguments of a call: [*args, **kw]. *)
Definition arguments : Type := list object * list (string * object).

Definition is_None (v : object) : bool :=
  match v with VNone => true | _ => false end.

(** [isinstance(obj, futures.Future)] *)
Definition isinstance_Future (obj : object) : bool :=
  match obj with VFuture _ => true | _ => false end.

(** [isinstance(obj, FromWrapper)] *)
Definition isinstance_FromWrapper (obj : object) : bool :=
  match obj with VFromWrapper _ => true | _ => false end.

(** [isinstance(obj, CoroWrapper)] *)
Definition isinstance_CoroWrapper (obj : object) : bool :=
  match obj with VCoroWrapper _ => true | _ => false end.

(** [isinstance(obj, asyncio.tasks.CoroWrapper)] *)
Definition isinstance_asyncio_CoroWrapper (obj : object) : bool :=
  match obj with VAsyncioCoroWrapper _ => true | _ => false end.

(** [inspect.isgenerator(obj)], that is [isinstance(obj, types.GeneratorType)] *)
Definition inspect_isgenerator (obj : object) : bool :=
  match obj with VGenerator _ => true | _ => false end.

(** ** The termination signal [Return] (lines 30-60) *)

(** Truth value of a tuple: [not args] is true for the empty tuple. *)
Definition not_ (args : list object) : bool :=
  match args with [] => true | _ => false end.

(** [args[0]]; the index is in range wherever the code evaluates it. *)
Definition item0 (args : list object) : object := nth 0 args VNone.

(** Lines 38-45: on Python 3.3 and later [Return] is a function that builds
    a plain [StopIteration]. *)
Definition Return_function (args : list object) : exn :=
  let value :=
    if not_ args then VNone
    else if Nat.eqb (length args) 1 then item0 args
    else VTuple args in
  StopIteration value.

(** Lines 47-56: otherwise [Return] is a class; this is its [__init__]. *)
Definition Return___init__ (args : list object) : exn :=
  let value :=
    if not_ args then VNone
    else if Nat.eqb (length args) 1 then item0 args
    else VTuple args in
  ReturnExc value false.

(** ** The delegation tag (lines 172-185) *)

(** [FromWrapper.__init__]: the constructor unwraps one level, asserts that
    the unwrapped object is not a wrapper again, and stores it. *)
Definition FromWrapper (obj : object) : result object :=
  match obj with
  | VFromWrapper inner =>
      if negb (isinstance_FromWrapper inner) then inr (VFromWrapper inner)
      else inl (AssertionError VNone)
  | _ => inr (VFromWrapper obj)
  end.

(** [From(obj)]; the argument [DEBUG] is the value of the module global
    [_DEBUG] when the call is evaluated. *)
Definition From (DEBUG : bool) (obj : object) : result object :=
  if negb DEBUG then inr obj else FromWrapper obj.

(** ** Generator objects

    A generator function is represented by its code object: the type of the
    local state of a suspended frame, the frame a call starts with, and what
    running the frame from its current position does.  A run ends at the
    next [yield] or by an exception leaving the body; a [return] (or falling
    off the end) is the exception [StopIteration].  Bodies are functions of
    their frame, of what they are resumed with and of the module global
    [_DEBUG] as it is when they run. *)

Inductive resume : Type :=
| RSend (v : object)      (* the value of the yield expression *)
| RThrow (e : exn)       (* the exception raised at the yield expression *).

Inductive outcome (L : Type) : Type :=
| Yield (item : object) (offset : nat) (locals : L)
| Raise (e : exn).
Arguments Yield {L} item offset locals.
Arguments Raise {L} e.

Record code : Type := {
  co_name : string;
  co_locals : Type;
  co_entry : arguments -> co_locals;
  co_resume : co_locals -> bool -> resume -> outcome co_locals
}.

(** A frame object; [f_lasti] is [-1] until the first instruction has run. *)
Record frame : Type := {
  f_code : code;
  f_lasti : Z;
  f_locals : co_locals f_code
}.

(** A generator object: [gi_frame] is [None] once the body has finished. *)
Record generator : Type := {
  gi_frame : option frame;
  gi_running : bool;
  gi_code : code
}.

(** ** Function objects *)

(** The code of a function of the user.  A plain function is given by
    what it returns or raises on its arguments; a generator function by its
    code object.  Either way the body works on its own arguments and frame:
    a plain body does not read the debug flag, and no body shares a list,
    a dictionary or a global with another or drives another computation.
    The statements about user functions are statements about such bodies. *)
Inductive fn_code : Type :=
| PlainCode (body : arguments -> result object)   (* a def without yield *)
| GeneratorCode (c : code)                        (* a def with yield *).

(** The value of an entry of a function's [__dict__]: an object, or a
    function (as the entry [__wrapped__] holds one). *)
Inductive attribute (F : Type) : Type :=
| AttrObject (v : object)
| AttrFunction (f : F).
Arguments AttrObject {F} v.
Arguments AttrFunction {F} f.

(** The attributes of a function object: the three slots the module reads
    and the dictionary, where every other attribute lives, [_is_coroutine]
    and [__wrapped__] among them. *)
Record attributes (F : Type) : Type := {
  __name__ : string;
  __qualname__ : string;          (* read on Python 3.3 and later only *)
  __doc__ : object;
  __dict__ : gmap string (attribute F)
}.
Arguments __name__ {F} _.
Arguments __qualname__ {F} _.
Arguments __doc__ {F} _.
Arguments __dict__ {F} _.

(** A function written by the user of the module. *)
#[warnings="-register-all"]
Inductive pyfunc : Type := PyFunc {
  func_attrs : attributes pyfunc;
  func_code : fn_code
}.

(** [inspect.isgeneratorfunction(func)] *)
Definition inspect_isgeneratorfunction (func : pyfunc) : bool :=
  match func_code func with GeneratorCode _ => true | PlainCode _ => false end.

(** ** The world *)

(** An entry of a traceback, as [traceback.extract_stack] returns them. *)
Record FrameSummary : Type := {
  fs_filename : string;
  fs_lineno : Z;
  fs_name : string;
  fs_line : string
}.

(** A record handed to the logger: level, message (or format) and the
    arguments of the format. *)
Record LogRecord : Type := {
  levelname : string;
  msg : string;
  msg_args : list object
}.

Module CoroWrapper.
(** The instance attributes of a [CoroWrapper].  An attribute that has
    not been assigned is [None]. *)
Record t : Type := {
  gen : option object;
  func : pyfunc;
  _source_traceback : list FrameSummary;
  __name__ : option string;
  __qualname__ : option string;
  __doc__ : option object
}.
End CoroWrapper.

Record world : Type := {
  _DEBUG : bool;                       (* the module global of line 25 *)
  generators : list generator;         (* VGenerator r is entry r *)
  wrappers : list CoroWrapper.t;       (* VCoroWrapper r is entry r *)
  log : list LogRecord                 (* what the logger received *)
}.

Definition set__DEBUG (b : bool) (w : world) : world :=
  {| _DEBUG := b; generators := generators w; wrappers := wrappers w; log := log w |}.
Definition set_generators (gs : list generator) (w : world) : world :=
  {| _DEBUG := _DEBUG w; generators := gs; wrappers := wrappers w; log := log w |}.
Definition set_wrappers (ws : list CoroWrapper.t) (w : world) : world :=
  {| _DEBUG := _DEBUG w; generators := generators w; wrappers := ws; log := log w |}.
Definition set_log (l : list LogRecord) (w : world) : world :=
  {| _DEBUG := _DEBUG w; generators := generators w; wrappers := wrappers w; log := l |}.

(** ** The monad of stateful, fallible code *)

Definition M (A : Type) : Type := world -> result A * world.

Definition ret {A} (a : A) : M A := fun w => (inr a, w).
Definition raise {A} (e : exn) : M A := fun w => (inl e, w).
Definition bind {A B} (m : M A) (k : A -> M B) : M B :=
  fun w => match m w with
           | (inl e, w') => (inl e, w')
           | (inr a, w') => k a w'
           end.
Definition lift {A} (r : result A) : M A := fun w => (r, w).

Notation "x <- m ;; k" := (bind m (fun x => k))
  (at level 100, m at next level, right associativity).
Notation "m ;;; k" := (bind m (fun _ => k))
  (at level 100, right associativity).

(** [logger.error(msg, *args)] *)
Definition logger_error (m : string) (args : list object) : M unit :=
  fun w => (inr tt, set_log (log w ++ [{| levelname := "ERROR"; msg := m; msg_args := args |}]) w).

(** ** The generator protocol of the host runtime

    [next], [send], [throw] and [close] of generator objects, after
    CPython's [gen_send_ex], [gen_throw] and [gen_close] (the versions the
    module runs on: an exception leaving the body, [StopIteration] included,
    reaches the caller as it is). *)

(** Reading a reference.  The objects the module creates are entered in
    the tables when they are created and never leave them; a reference
    outside the table is an error of the interpreter. *)
Definition lookup_generator (r : ref) : M generator :=
  fun w => match generators w !! r with
           | Some g => (inr g, w)
           | None => (inl (Exception "SystemError" []), w)
           end.

Definition store_generator (r : ref) (g : generator) : M unit :=
  fun w => (inr tt, set_generators (<[r:=g]> (generators w)) w).

Definition read__DEBUG : M bool := fun w => (inr (_DEBUG w), w).

Definition finished (g : generator) : generator :=
  {| gi_frame := None; gi_running := false; gi_code := gi_code g |}.

Definition suspended (g : generator) (f : frame) (offset : nat)
    (l : co_locals (f_code f)) : generator :=
  {| gi_frame := Some {| f_code := f_code f; f_lasti := Z.of_nat offset; f_locals := l |};
     gi_running := false;
     gi_code := gi_code g |}.

(** Run the frame until the next [yield] or until the body is left. *)
Definition run_frame (r : ref) (g : generator) (f : frame) (inp : resume) : M object :=
  DEBUG <- read__DEBUG ;;
  match co_resume (f_code f) (f_locals f) DEBUG inp with
  | Yield item offset l => (store_generator r (suspended g f offset l) ;;; ret item)
  | Raise e => (store_generator r (finished g) ;;; raise e)
  end.

Definition gen_send_ex (r : ref) (inp : resume) : M object :=
  g <- lookup_generator r ;;
  if gi_running g then raise (ValueError "generator already executing")
  else match gi_frame g with
       | None =>
           match inp with
           | RSend _ => raise (StopIteration VNone)
           | RThrow e => raise e
           end
       | Some f =>
           if Z.eqb (f_lasti f) (-1) then
             match inp with
             | RSend v =>
                 if is_None v then run_frame r g f inp
                 else raise (TypeError "can't send non-None value to a just-started generator")
             | RThrow e => (store_generator r (finished g) ;;; raise e)
             end
           else run_frame r g f inp
       end.

Definition is_GeneratorExit (e : exn) : bool :=
  match e with GeneratorExit => true | _ => false end.

Definition gen_close (r : ref) : M object :=
  fun w => match gen_send_ex r (RThrow GeneratorExit) w with
           | (inr _, w') => (inl (RuntimeError "generator ignored GeneratorExit"), w')
           | (inl e, w') =>
               if isinstance_StopIteration e || is_GeneratorExit e then (inr VNone, w')
               else (inl e, w')
           end.

(** The same operations reached through an object: [next(obj)],
    [obj.send(v)], [obj.throw(e)], [obj.close()] and the attributes
    [obj.gi_frame], [obj.gi_running], [obj.gi_code], for [obj] a generator. *)
Definition next (obj : object) : M object :=
  match obj with
  | VGenerator r => gen_send_ex r (RSend VNone)
  | _ => raise (TypeError "object is not an iterator")
  end.

Definition generator_send (obj v : object) : M object :=
  match obj with
  | VGenerator r => gen_send_ex r (RSend v)
  | _ => raise (AttributeError "send")
  end.

Definition generator_throw (obj : object) (e : exn) : M object :=
  match obj with
  | VGenerator r => gen_send_ex r (RThrow e)
  | _ => raise (AttributeError "throw")
  end.

Definition generator_close (obj : object) : M object :=
  match obj with
  | VGenerator r => gen_close r
  | _ => raise (AttributeError "close")
  end.

Definition generator_gi_frame (obj : object) : M (option frame) :=
  match obj with
  | VGenerator r => (g <- lookup_generator r ;; ret (gi_frame g))
  | _ => raise (AttributeError "gi_frame")
  end.

Definition generator_gi_running (obj : object) : M bool :=
  match obj with
  | VGenerator r => (g <- lookup_generator r ;; ret (gi_running g))
  | _ => raise (AttributeError "gi_running")
  end.

Definition generator_gi_code (obj : object) : M code :=
  match obj with
  | VGenerator r => (g <- lookup_generator r ;; ret (gi_code g))
  | _ => raise (AttributeError "gi_code")
  end.

(** The attribute [gi_frame] read on the [CoroWrapper] instance [self]:
    the property of lines 93-95 returns [self.gen.gi_frame], and
    [self.gen] may be a [CoroWrapper] in its turn.  [n] bounds the nesting
    of the property calls: a chain of wrappers that does not end (a wrapper
    reached again from its own [gen]) exhausts every bound, as it exhausts
    the stack of the interpreter. *)
Fixpoint wrapper_gi_frame (n : nat) (self : ref) (w : world) : result (option frame) :=
  match n with
  | O => inl (RuntimeError "maximum recursion depth exceeded")
  | S n' =>
      match wrappers w !! self with
      | Some o =>
          match CoroWrapper.gen o with
          | Some (VGenerator r) | Some (VAsyncioCoroWrapper r) =>
              match generators w !! r with
              | Some g => inr (gi_frame g)
              | None => inl (Exception "SystemError" [])
              end
          | Some (VCoroWrapper self') => wrapper_gi_frame n' self' w
          | Some _ => inl (AttributeError "gi_frame")
          | None => inl (AttributeError "gen")
          end
      | None => inl (Exception "SystemError" [])
      end
  end.

(** [obj.gi_frame].  A generator has the attribute; a [CoroWrapper] has
    it as a property, and so has the [CoroWrapper] of asyncio, whose
    property reads the attribute of the generator it wraps.  The other
    objects of the model have no such attribute. *)
Definition object_gi_frame (obj : object) (w : world) : result (option frame) :=
  match obj with
  | VGenerator r | VAsyncioCoroWrapper r =>
      match generators w !! r with
      | Some g => inr (gi_frame g)
      | None => inl (Exception "SystemError" [])
      end
  | VCoroWrapper self => wrapper_gi_frame (length (wrappers w)) self w
  | _ => inl (AttributeError "gi_frame")
  end.

(** [getattr(obj, 'gi_frame', None)]: an [AttributeError] gives the
    default, any other exception is raised. *)
Definition getattr_gi_frame (obj : object) : M (option frame) :=
  fun w => match object_gi_frame obj w with
           | inl (AttributeError _) => (inr None, w)
           | r => (r, w)
           end.

(** Calling a generator function binds the arguments in a new frame and
    returns a new generator object; no instruction of the body runs.  The
    arguments are taken to fit the parameters ([co_entry] is total): a call
    that Python refuses with [TypeError] for its arguments is not
    modelled. *)
Definition new_generator (c : code) (args : arguments) : M object :=
  fun w =>
    (inr (VGenerator (length (generators w))),
     set_generators
       (generators w ++
        [{| gi_frame := Some {| f_code := c; f_lasti := -1; f_locals := co_entry c args |};
            gi_running := false;
            gi_code := c |}]) w).

(** A call of a user function with the arguments [args]. *)
Definition call_pyfunc (func : pyfunc) (args : arguments) : M object :=
  match func_code func with
  | PlainCode body => lift (body args)
  | GeneratorCode c => new_generator c args
  end.

(** Any callable object: its attributes and what a call does.  The second
    argument of [call] is the interpreter's call stack at the call site,
    oldest frame first. *)
Record callable : Type := {
  attrs : attributes pyfunc;
  call : arguments -> list FrameSummary -> M object
}.

Definition callable_of_pyfunc (func : pyfunc) : callable :=
  {| attrs := func_attrs func; call := fun args _ => call_pyfunc func args |}.

Definition newline : string := String "010"%char EmptyString.

(** ** The module *)

Section Coroutines.

(** What the module takes from its host: the version flags of [compat],
    [sys.version_info] (major, minor), whether [import asyncio] succeeded,
    the formatting helpers it calls, the traceback entry of a running
    [wrapper] frame and the bytecode offset of the [yield] of line 131. *)
Variables PY3 PY33 : bool.
Variable version_info : nat * nat.
Variable asyncio_is_not_None : bool.
Variable _format_callback : pyfunc -> list object -> string.
Variable traceback_format_list : list FrameSummary -> list string.
Variable str_rstrip : string -> string.
Variable wrapper_frame : FrameSummary.
Variable coro_yield_offset : nat.

(** Line 27: [_PY35 = (sys.version_info >= (3, 5))] *)
Definition _PY35 : bool :=
  let (major, minor) := version_info in
  Nat.ltb 3 major || (Nat.eqb major 3 && Nat.leb 5 minor).

(** Lines 30-56: which [Return] the module defines. *)
Definition Return (args : list object) : exn :=
  if PY33 then Return_function args else Return___init__ args.

(** Lines 58-60, [Return.__del__], for an instance of the class. *)
Definition Return___del__ (self : exn) : M unit :=
  match self with
  | ReturnExc value raised =>
      if negb raised then logger_error "Return(%r) used without raise" [value]
      else ret tt
  | _ => ret tt
  end.

(** *** [CoroWrapper] (lines 63-116) *)

Definition lookup_wrapper (self : ref) : M CoroWrapper.t :=
  fun w => match wrappers w !! self with
           | Some o => (inr o, w)
           | None => (inl (Exception "SystemError" []), w)
           end.

Definition update_wrapper (self : ref) (f : CoroWrapper.t -> CoroWrapper.t) : M unit :=
  fun w => match wrappers w !! self with
           | Some o => (inr tt, set_wrappers (<[self:=f o]> (wrappers w)) w)
           | None => (inl (Exception "SystemError" []), w)
           end.

(** [self.gen] *)
Definition self_gen (self : ref) : M object :=
  o <- lookup_wrapper self ;;
  match CoroWrapper.gen o with
  | Some g => ret g
  | None => raise (AttributeError "gen")
  end.

(** [CoroWrapper(gen, func)]: a new instance initialised by [__init__];
    the result is the reference of the instance.  [stack] is the call
    stack of the caller, the caller's frame last: what
    [traceback.extract_stack(sys._getframe(1))] returns. *)
Definition CoroWrapper___init__ (gen : object) (func : pyfunc)
    (stack : list FrameSummary) : M ref :=
  if negb (inspect_isgenerator gen) then raise (AssertionError gen)
  else fun w =>
    (inr (length (wrappers w)),
     set_wrappers
       (wrappers w ++
        [{| CoroWrapper.gen := Some gen;
            CoroWrapper.func := func;
            CoroWrapper._source_traceback := stack;
            CoroWrapper.__name__ := None;
            CoroWrapper.__qualname__ := None;
            CoroWrapper.__doc__ := None |}]) w).

Definition CoroWrapper___iter__ (self : ref) : M object :=
  ret (VCoroWrapper self).

Definition CoroWrapper___next__ (self : ref) : M object :=
  g <- self_gen self ;; next g.

Definition CoroWrapper_send (self : ref) (value : list object) : M object :=
  let value := if Nat.eqb (length value) 1 then item0 value else VTuple value in
  g <- self_gen self ;; generator_send g value.

Definition CoroWrapper_throw (self : ref) (exc : exn) : M object :=
  g <- self_gen self ;; generator_throw g exc.

Definition CoroWrapper_close (self : ref) : M object :=
  g <- self_gen self ;; generator_close g.

Definition CoroWrapper_gi_frame (self : ref) : M (option frame) :=
  g <- self_gen self ;; generator_gi_frame g.

Definition CoroWrapper_gi_running (self : ref) : M bool :=
  g <- self_gen self ;; generator_gi_running g.

Definition CoroWrapper_gi_code (self : ref) : M code :=
  g <- self_gen self ;; generator_gi_code g.

(** The message of line 112. *)
Definition never_yielded_message (func tb : string) : string :=
  "Coroutine " ++ func ++ " was never yielded from" ++ newline ++
  "Coroutine object created at (most recent call last):" ++ newline ++
  str_rstrip tb.

Definition CoroWrapper___del__ (self : ref) : M unit :=
  o <- lookup_wrapper self ;;
  let gen := match CoroWrapper.gen o with Some g => g | None => VNone end in
  frame <- getattr_gi_frame gen ;;
  match frame with
  | Some f =>
      if Z.eqb (f_lasti f) (-1) then
        let func := _format_callback (CoroWrapper.func o) [] in
        let tb := String.concat "" (traceback_format_list (CoroWrapper._source_traceback o)) in
        logger_error (never_yielded_message func tb) []
      else ret tt
  | None => ret tt
  end.

(** *** The decorator (lines 118-153) *)

(** The frame of the generator function [coro] of lines 128-132 is either
    at its entry, with the arguments bound, or suspended at the [yield]
    of line 131. *)
Inductive coro_locals : Type :=
| coro_entry (args : arguments)
| coro_yielded.

(** The body of [coro], for a plain [func]. *)
Definition coro_resume (func : arguments -> result object) (l : coro_locals)
    (DEBUG : bool) (inp : resume) : outcome coro_locals :=
  match l with
  | coro_entry args =>
      match func args with
      | inl e => Raise e
      | inr res =>
          if isinstance_Future res || inspect_isgenerator res then
            match From DEBUG res with
            | inl e => Raise e
            | inr item => Yield item coro_yield_offset coro_yielded
            end
          else Raise (Return [res])
      end
  | coro_yielded =>
      match inp with
      | RSend res => Raise (Return [res])
      | RThrow e => Raise e
      end
  end.

Definition coro_code (func : arguments -> result object) : code :=
  {| co_name := "coro";
     co_locals := coro_locals;
     co_entry := coro_entry;
     co_resume := coro_resume func |}.

(** The attributes of a function object just created by a nested [def]. *)
Definition def_attributes (name : string) : attributes pyfunc :=
  {| __name__ := name;
     __qualname__ := "coroutine.<locals>." ++ name;
     __doc__ := VNone;
     __dict__ := ∅ |}.

(** [setattr(f, name, v)] for a name that is not one of the slots: an
    entry of the dictionary. *)
Definition setattr (name : string) (v : attribute pyfunc) (a : attributes pyfunc)
    : attributes pyfunc :=
  {| __name__ := __name__ a;
     __qualname__ := __qualname__ a;
     __doc__ := __doc__ a;
     __dict__ := <[name:=v]> (__dict__ a) |}.

(** [f.__wrapped__ = func] (lines 134 and 150) *)
Definition set___wrapped__ (func : pyfunc) (a : attributes pyfunc) : attributes pyfunc :=
  setattr "__wrapped__" (AttrFunction func) a.

(** From Python 3.4 on [functools.update_wrapper] sets [__wrapped__] after
    it has updated the dictionary; Python 3.2 and 3.3 set it first, so that
    an entry [__wrapped__] of the wrapped function replaces it. *)
Definition wrapped_set_last : bool :=
  let (major, minor) := version_info in
  Nat.ltb 3 major || (Nat.eqb major 3 && Nat.leb 4 minor).

(** [functools.wraps(wrapped)] applied to a function with attributes [a]:
    name and documentation are copied, the dictionary is updated with the
    entries of the dictionary of [wrapped], and on Python 3 the entry
    [__wrapped__] is set. *)
Definition functools_wraps (wrapped : pyfunc) (a : attributes pyfunc) : attributes pyfunc :=
  {| __name__ := __name__ (func_attrs wrapped);
     __qualname__ := __qualname__ (func_attrs wrapped);
     __doc__ := __doc__ (func_attrs wrapped);
     __dict__ :=
       if PY3 then
         if wrapped_set_last then
           <["__wrapped__":=AttrFunction wrapped]>
             (__dict__ (func_attrs wrapped) ∪ __dict__ a)
         else
           __dict__ (func_attrs wrapped)
           ∪ <["__wrapped__":=AttrFunction wrapped]> (__dict__ a)
       else __dict__ (func_attrs wrapped) ∪ __dict__ a |}.

Definition set_source_traceback (tb : list FrameSummary) (o : CoroWrapper.t) : CoroWrapper.t :=
  {| CoroWrapper.gen := CoroWrapper.gen o;
     CoroWrapper.func := CoroWrapper.func o;
     CoroWrapper._source_traceback := tb;
     CoroWrapper.__name__ := CoroWrapper.__name__ o;
     CoroWrapper.__qualname__ := CoroWrapper.__qualname__ o;
     CoroWrapper.__doc__ := CoroWrapper.__doc__ o |}.

Definition set_names (name qualname : option string) (doc : option object)
    (o : CoroWrapper.t) : CoroWrapper.t :=
  {| CoroWrapper.gen := CoroWrapper.gen o;
     CoroWrapper.func := CoroWrapper.func o;
     CoroWrapper._source_traceback := CoroWrapper._source_traceback o;
     CoroWrapper.__name__ := name;
     CoroWrapper.__qualname__ := qualname;
     CoroWrapper.__doc__ := doc |}.

(** Lines 140-148: the function [wrapper] defined in debug mode, closed
    over [coro] and [func]; [stack] is the call stack of its caller. *)
Definition wrapper (coro func : pyfunc) (args : arguments)
    (stack : list FrameSummary) : M object :=
  g <- call_pyfunc coro args ;;
  w <- CoroWrapper___init__ g func (stack ++ [wrapper_frame]) ;;
  update_wrapper w (fun o =>
    match CoroWrapper._source_traceback o with
    | [] => o
    | tb => set_source_traceback (removelast tb) o
    end) ;;;
  update_wrapper w (fun o =>
    set_names (Some (__name__ (func_attrs func))) (CoroWrapper.__qualname__ o)
              (CoroWrapper.__doc__ o) o) ;;;
  (if _PY35 then
     update_wrapper w (fun o =>
       set_names (CoroWrapper.__name__ o) (Some (__qualname__ (func_attrs func)))
                 (CoroWrapper.__doc__ o) o)
   else ret tt) ;;;
  update_wrapper w (fun o =>
    set_names (CoroWrapper.__name__ o) (CoroWrapper.__qualname__ o)
              (Some (__doc__ (func_attrs func))) o) ;;;
  ret (VCoroWrapper w).

(** [coroutine(func)], evaluated in the world [w]: the module global
    [_DEBUG] is read here, when the decorator is applied.  (When [func] is
    a generator function and [_DEBUG] is false the result is [func]
    itself, carrying the new attribute.) *)
Definition coroutine (func : pyfunc) (w : world) : callable :=
  let coro :=
    match func_code func with
    | GeneratorCode _ => func
    | PlainCode body =>
        let coro := {| func_attrs := functools_wraps func (def_attributes "coro");
                       func_code := GeneratorCode (coro_code body) |} in
        if negb PY3 then
          {| func_attrs := set___wrapped__ func (func_attrs coro);
             func_code := func_code coro |}
        else coro
    end in
  let wrapper :=
    if negb (_DEBUG w) then callable_of_pyfunc coro
    else
      let wrapper := {| attrs := functools_wraps func (def_attributes "wrapper");
                        call := wrapper coro func |} in
      if negb PY3 then
        {| attrs := set___wrapped__ func (attrs wrapper); call := call wrapper |}
      else wrapper in
  {| attrs := setattr "_is_coroutine" (AttrObject (VBool true)) (attrs wrapper);
     call := call wrapper |}.

(** Lines 156-158: [getattr(func, '_is_coroutine', False)] *)
Definition iscoroutinefunction (func : callable) : attribute pyfunc :=
  default (AttrObject (VBool false)) (__dict__ (attrs func) !! "_is_coroutine").

(** Lines 161-165: [isinstance(obj, _COROUTINE_TYPES)] *)
Definition isinstance__COROUTINE_TYPES (obj : object) : bool :=
  if asyncio_is_not_None then
    isinstance_CoroWrapper obj || isinstance_asyncio_CoroWrapper obj
  else isinstance_CoroWrapper obj.

(** Lines 168-170 *)
Definition iscoroutine (obj : object) : bool :=
  isinstance__COROUTINE_TYPES obj || inspect_isgenerator obj.

(** *** Driving a coroutine object *)

(** What a driver may do with a coroutine object: the four operations of
    the generator protocol and the three attributes a generator exposes. *)
Inductive driver_op : Type :=
| op_next
| op_send (v : object)
| op_throw (e : exn)
| op_close
| op_gi_frame
| op_gi_running
| op_gi_code.

Inductive answer : Type :=
| AObject (v : object)
| AFrame (f : option frame)
| ABool (b : bool)
| ACode (c : code).

Definition fmap_M {A B} (f : A -> B) (m : M A) : M B := a <- m ;; ret (f a).

(** The operation applied to a native generator object. *)
Definition on_generator (g : object) (op : driver_op) : M answer :=
  match op with
  | op_next => fmap_M AObject (next g)
  | op_send v => fmap_M AObject (generator_send g v)
  | op_throw e => fmap_M AObject (generator_throw g e)
  | op_close => fmap_M AObject (generator_close g)
  | op_gi_frame => fmap_M AFrame (generator_gi_frame g)
  | op_gi_running => fmap_M ABool (generator_gi_running g)
  | op_gi_code => fmap_M ACode (generator_gi_code g)
  end.

(** The operation applied to a [CoroWrapper] instance. *)
Definition on_CoroWrapper (self : ref) (op : driver_op) : M answer :=
  match op with
  | op_next => fmap_M AObject (CoroWrapper___next__ self)
  | op_send v => fmap_M AObject (CoroWrapper_send self [v])
  | op_throw e => fmap_M AObject (CoroWrapper_throw self e)
  | op_close => fmap_M AObject (CoroWrapper_close self)
  | op_gi_frame => fmap_M AFrame (CoroWrapper_gi_frame self)
  | op_gi_running => fmap_M ABool (CoroWrapper_gi_running self)
  | op_gi_code => fmap_M ACode (CoroWrapper_gi_code self)
  end.

(** Method lookup goes by the class of the object. *)
Definition on_coroutine (c : object) (op : driver_op) : M answer :=
  match c with
  | VCoroWrapper self => on_CoroWrapper self op
  | _ => on_generator c op
  end.

(** A driver session: the operations are applied in order, and every
    result, returned or raised, is recorded. *)
Fixpoint session {Op : Type} (perform : Op -> M answer) (ops : list Op)
    (w : world) : list (result answer) * world :=
  match ops with
  | [] => ([], w)
  | op :: ops' =>
      let (r, w') := perform op w in
      let (rs, w'') := session perform ops' w' in
      (r :: rs, w'')
  end.

(** What the scheduler does with a yielded item: a [FromWrapper] stands
    for the object in its slot. *)
Definition untag (item : object) : object :=
  match item with
  | VFromWrapper obj => obj
  | _ => item
  end.

(** How a driven computation ended. *)
Inductive completion : Type :=
| Done (value : object)
| Failed (e : exn)
| Pending.

(** Modelled from the spec: the scheduler that drives a coroutine object
    (its code, the task stepping of the event loop, is not part of this
    module).  Each resume either receives an awaitable, tagged by [From]
    or bare, waits for it and feeds its result (or failure) back in, or
    it ends with a signal carrying the final value; any other exception
    is the computation's failure.  [resolve] tells what an awaitable
    completes with.  The result also lists the awaitables waited for. *)
Fixpoint drive (fuel : nat) (resolve : object -> result object) (c : object)
    (op : driver_op) (w : world) : (completion * list object) * world :=
  match fuel with
  | O => ((Pending, []), w)
  | S fuel' =>
      match on_coroutine c op w with
      | (inr (AObject item), w') =>
          let awaitable := untag item in
          let op' := match resolve awaitable with
                     | inr v => op_send v
                     | inl e => op_throw e
                     end in
          let '((r, awaited), w'') := drive fuel' resolve c op' w' in
          ((r, awaitable :: awaited), w'')
      | (inr _, w') => ((Pending, []), w')
      | (inl e, w') =>
          match exn_value e with
          | Some v => ((Done v, []), w')
          | None => ((Failed e, []), w')
          end
      end
  end.

(** Call the marked function and drive what it returns to completion. *)
Definition run_until_complete (fuel : nat) (resolve : object -> result object)
    (f : callable) (args : arguments) (stack : list FrameSummary)
    (w : world) : (completion * list object) * world :=
  match call f args stack w with
  | (inr c, w') => drive fuel resolve c op_next w'
  | (inl e, w') => ((Failed e, []), w')
  end.

(** *** Objects that calls create *)

(** The generator object a call of a generator function creates. *)
Definition created_generator (c : code) (args : arguments) : generator :=
  {| gi_frame := Some {| f_code := c; f_lasti := -1; f_locals := co_entry c args |};
     gi_running := false;
     gi_code := c |}.

(** *** Sample programs *)

(** The attributes of a function object created by a top-level [def]. *)
Definition toplevel_attributes (name : string) : attributes pyfunc :=
  {| __name__ := name;
     __qualname__ := name;
     __doc__ := VNone;
     __dict__ := ∅ |}.

(** [def add_one(n): return n + 1] *)
Definition add_one_body (args : arguments) : result object :=
  match args with
  | ([VInt n], []) => inr (VInt (n + 1))
  | _ => inl (TypeError "add_one() takes exactly 1 argument")
  end.

Definition add_one : pyfunc :=
  {| func_attrs := toplevel_attributes "add_one";
     func_code := PlainCode add_one_body |}.

(** [def relay(future_like): return future_like], a plain function whose
    result is the awaitable it was given. *)
Definition relay_body (args : arguments) : result object :=
  match args with
  | ([future_like], []) => inr future_like
  | _ => inl (TypeError "relay() takes exactly 1 argument")
  end.

Definition relay : pyfunc :=
  {| func_attrs := toplevel_attributes "relay";
     func_code := PlainCode relay_body |}.

(** A generator function:
    [def countdown(n): while n > 0: yield n; n -= 1].
    The state of the frame is the number of items still to be yielded; an
    exception thrown in at the [yield] leaves the body, which has no
    handler. *)
Definition countdown_code : code :=
  {| co_name := "countdown";
     co_locals := nat;
     co_entry := fun args =>
       match args with
       | ([VInt n], []) => Z.to_nat n
       | _ => O
       end;
     co_resume := fun n _ inp =>
       match inp with
       | RThrow e => Raise e
       | RSend _ =>
           match n with
           | O => Raise (StopIteration VNone)
           | S n' => Yield (VInt (Z.of_nat n)) 9%nat n'
           end
       end |}.

Definition countdown : pyfunc :=
  {| func_attrs := toplevel_attributes "countdown";
     func_code := GeneratorCode countdown_code |}.

(** A world with no objects and an empty log. *)
Definition empty_world (DEBUG : bool) : world :=
  {| _DEBUG := DEBUG; generators := []; wrappers := []; log := [] |}.

(** Sample values for what the host provides. *)
Definition sample_format_callback (func : pyfunc) (args : list object) : string :=
  __name__ (func_attrs func) ++ "()".
Definition sample_format_list (tb : list FrameSummary) : list string :=
  map (fun s => (fs_name s ++ newline)%string) tb.
Definition is_space (c : ascii) : bool :=
  match nat_of_ascii c with
  | 9%nat | 10%nat | 11%nat | 12%nat | 13%nat | 32%nat => true
  | _ => false
  end.
Fixpoint sample_rstrip (s : string) : string :=
  match s with
  | EmptyString => EmptyString
  | String c s' =>
      match sample_rstrip s' with
      | EmptyString => if is_space c then EmptyString else String c EmptyString
      | t => String c t
      end
  end.
Definition sample_wrapper_frame : FrameSummary :=
  {| fs_filename := "trollius/coroutines.py"; fs_lineno := 141;
     fs_name := "wrapper"; fs_line := "w = CoroWrapper(...)" |}.
Definition sample_caller_frame : FrameSummary :=
  {| fs_filename := "main.py"; fs_lineno := 1;
     fs_name := "<module>"; fs_line := "relay(pending_future)" |}.

(** A world in debug mode holding one generator of [countdown(2)], not yet
    started, inside one [CoroWrapper]. *)
Definition sample_wrapper : CoroWrapper.t :=
  {| CoroWrapper.gen := Some (VGenerator 0%nat);
     CoroWrapper.func := countdown;
     CoroWrapper._source_traceback := [sample_caller_frame];
     CoroWrapper.__name__ := Some "countdown";
     CoroWrapper.__qualname__ := None;
     CoroWrapper.__doc__ := Some VNone |}.

Definition sample_world : world :=
  {| _DEBUG := true;
     generators := [created_generator countdown_code ([VInt 2], [])];
     wrappers := [sample_wrapper];
     log := [] |}.

(** A resolution of awaitables: every future completes with ["x"]. *)
Definition sample_resolve (awaitable : object) : result object :=
  match awaitable with
  | VFuture _ => inr (VStr "x")
  | _ => inl (TypeError "not awaitable")
  end.

(** Sequencing of two calls, the second on the result of the first: an
    exception raised by the first is the outcome. *)
Definition and_then (r : result object) (f : object -> result object) : result object :=
  match r with
  | inl e => inl e
  | inr v => f v
  end.

(** The record [Return.__del__] hands to the logger. *)
Definition Return_diagnostic (value : object) : LogRecord :=
  {| levelname := "ERROR";
     msg := "Return(%r) used without raise";
     msg_args := [value] |}.

(** The record [CoroWrapper.__del__] hands to the logger for a wrapper
    around a computation of [func] created with the call stack [stack]. *)
Definition never_yielded_diagnostic (func : pyfunc) (stack : list FrameSummary) : LogRecord :=
  {| levelname := "ERROR";
     msg := never_yielded_message (_format_callback func [])
              (String.concat "" (traceback_format_list stack));
     msg_args := [] |}.

(** *** Notions used in the statements *)

(** The generator [r] exists and its body has run: it is suspended at a
    [yield] or has finished. *)
Definition was_started (r : ref) (w : world) : Prop :=
  exists g, generators w !! r = Some g /\
            match gi_frame g with
            | None => True
            | Some f => 0 <= f_lasti f
            end.

(** The generator [r] exists and no instruction of its body has run. *)
Definition never_started (r : ref) (w : world) : Prop :=
  exists g f, generators w !! r = Some g /\ gi_running g = false /\
              gi_frame g = Some f /\ f_lasti f = -1.

(** The changes a driver operation on the generator [r] may make: only
    entry [r] of the table of generators. *)
Definition only_generator (r : ref) (w w' : world) : Prop :=
  _DEBUG w' = _DEBUG w /\ wrappers w' = wrappers w /\ log w' = log w /\
  length (generators w') = length (generators w) /\
  forall j, j <> r -> generators w' !! j = generators w !! j.

(** The code a call of [coro] runs: the code of [func] where [func] is a
    generator function, and the body of lines 128-132 otherwise. *)
Definition code_of (func : pyfunc) : code :=
  match func_code func with
  | GeneratorCode c => c
  | PlainCode body => coro_code body
  end.

(** The [CoroWrapper] instance [wrapper] returns: around the generator
    [r], for [func], created with the call stack [stack]. *)
Definition created_wrapper (r : ref) (func : pyfunc) (stack : list FrameSummary)
    : CoroWrapper.t :=
  {| CoroWrapper.gen := Some (VGenerator r);
     CoroWrapper.func := func;
     CoroWrapper._source_traceback := stack;
     CoroWrapper.__name__ := Some (__name__ (func_attrs func));
     CoroWrapper.__qualname__ :=
       if _PY35 then Some (__qualname__ (func_attrs func)) else None;
     CoroWrapper.__doc__ := Some (__doc__ (func_attrs func)) |}.

(** The coroutine object [c] is the generator [r], bare or inside a
    [CoroWrapper]. *)
Definition denotes (c : object) (r : ref) (w : world) : Prop :=
  c = VGenerator r \/
  exists self o, c = VCoroWrapper self /\ wrappers w !! self = Some o /\
                 CoroWrapper.gen o = Some (VGenerator r).

(** The generator [r] exists and, until it has finished, runs the code [c]. *)
Definition runs_code (r : ref) (c : code) (w : world) : Prop :=
  exists g, generators w !! r = Some g /\
            match gi_frame g with
            | None => True
            | Some f => f_code f = c
            end.

(** Two worlds that differ at most in the module global [_DEBUG]. *)
Definition same_but_flag (w w' : world) : Prop :=
  generators w' = generators w /\ wrappers w' = wrappers w /\ log w' = log w.

(** Call the marked function, then let a driver apply [ops] to what the
    call returned; the result is what the driver observed. *)
Definition observed (f : callable) (args : arguments) (stack : list FrameSummary)
    (ops : list driver_op) (w : world) : result object * list (result answer) :=
  match call f args stack w with
  | (inr c, w') => (inr c, fst (session (on_coroutine c) ops w'))
  | (inl e, w') => (inl e, [])
  end.

(** The statement that the flag's value at call time is without effect:
    two runs of a marked function from worlds that differ only in the
    flag are observed to behave identically. *)
Definition call_time_flag_is_ignored : Prop :=
  forall func wd args stack ops w b,
    observed (coroutine func wd) args stack ops (set__DEBUG b w)
    = observed (coroutine func wd) args stack ops w.

(** The generator of [coro] once it is suspended at line 131. *)
Definition coro_suspended (body : arguments -> result object) : generator :=
  {| gi_frame := Some {| f_code := coro_code body;
                         f_lasti := Z.of_nat coro_yield_offset;
                         f_locals := coro_yielded |};
     gi_running := false;
     gi_code := coro_code body |}.

(** The generator of [coro] once its body has been left. *)
Definition coro_finished (body : arguments -> result object) : generator :=
  {| gi_frame := None; gi_running := false; gi_code := coro_code body |}.

(** *** Notions used in the further properties *)

(** A bound on the suspensions the generator of [coro] still has before
    it: one while it is at its entry, none once it is suspended at line 131
    or has finished. *)
Definition trampoline_budget (body : arguments -> result object) (g : generator)
    (k : nat) : Prop :=
  gi_running g = false /\
  match gi_frame g with
  | None => True
  | Some f =>
      exists (lasti : Z) (l : coro_locals),
        f = {| f_code := coro_code body; f_lasti := lasti; f_locals := l |} /\
        match l with
        | coro_entry _ => lasti = -1 /\ (1 <= k)%nat
        | coro_yielded => 0 <= lasti
        end
  end.

(** The operations that resume the body. *)
Definition is_resume (op : driver_op) : bool :=
  match op with
  | op_next | op_send _ | op_throw _ => true
  | _ => false
  end.

Definition returned {A} (r : result A) : bool :=
  match r with inr _ => true | inl _ => false end.

(** How often, in a session, a resume came back with a yielded item. *)
Fixpoint suspensions (ops : list driver_op) (rs : list (result answer)) : nat :=
  match ops, rs with
  | op :: ops', r :: rs' =>
      ((if is_resume op && returned r then 1 else 0) + suspensions ops' rs')%nat
  | _, _ => O
  end.

(** Every [CoroWrapper] instance of the world wraps a generator object of
    the world. *)
Definition wrappers_ok (w : world) : Prop :=
  forall self o,
    wrappers w !! self = Some o ->
    exists r, CoroWrapper.gen o = Some (VGenerator r) /\
              (r < length (generators w))%nat.

(** Two worlds in which the generator [r] and the debug flag are the same. *)
Definition agree_on (r : ref) (w w' : world) : Prop :=
  _DEBUG w' = _DEBUG w /\ generators w' !! r = generators w !! r.

(** [obj] is a [FromWrapper] whose slot holds a [FromWrapper]. *)
Definition nested_tag (obj : object) : bool :=
  match obj with
  | VFromWrapper inner => isinstance_FromWrapper inner
  | _ => false
  end.

(** [From] applied [n] times in a row. *)
Fixpoint From_times (n : nat) (DEBUG : bool) (obj : object) : result object :=
  match n with
  | O => inr obj
  | S n' => and_then (From_times n' DEBUG obj) (From DEBUG)
  end.

(** *** Notions used for the debug flag at call time *)

(** What a body that does not read the debug flag itself does when its
    frame is resumed: it yields an item, it yields what [From] makes of an
    object, or it is left by an exception. *)
Inductive step (L : Type) : Type :=
| StepYield (item : object) (offset : nat) (locals : L)     (* yield item *)
| StepYieldFrom (obj : object) (offset : nat) (locals : L)  (* yield From(obj) *)
| StepRaise (e : exn).
Arguments StepYield {L} item offset locals.
Arguments StepYieldFrom {L} obj offset locals.
Arguments StepRaise {L} e.

(** The step as it runs while the flag is [DEBUG]: that is when [From] is
    evaluated. *)
Definition through_From {L} (DEBUG : bool) (s : step L) : outcome L :=
  match s with
  | StepYield item offset l => Yield item offset l
  | StepYieldFrom obj offset l =>
      match From DEBUG obj with
      | inr item => Yield item offset l
      | inl e => Raise e
      end
  | StepRaise e => Raise e
  end.

(** The code [c] reads the debug flag in calls of [From] only, as [body]
    tells, and it hands to [From] objects that are not tagged yet. *)
Definition reads_flag_in_From_only (c : code)
    (body : co_locals c -> resume -> step (co_locals c)) : Prop :=
  forall l inp,
    (forall DEBUG, co_resume c l DEBUG inp = through_From DEBUG (body l inp)) /\
    match body l inp with
    | StepYieldFrom obj _ _ => isinstance_FromWrapper obj = false
    | _ => True
    end.

(** [v'] is [v], or [v] inside the [FromWrapper] that [From] puts around
    an object in debug mode. *)
Definition tag_added (v v' : object) : Prop :=
  v' = v \/ (isinstance_FromWrapper v = false /\ v' = VFromWrapper v).

(** Two outcomes of a body, the first with the flag off and the second
    with the flag on. *)
Definition tagged_outcome {L} (off on : outcome L) : Prop :=
  match off, on with
  | Yield item offset l, Yield item' offset' l' =>
      tag_added item item' /\ offset = offset' /\ l = l'
  | Raise e, Raise e' => e = e'
  | _, _ => False
  end.

(** Two results of [send] or [throw], with the flag off and on. *)
Definition tagged_object_result (off on : result object) : Prop :=
  match off, on with
  | inr v, inr v' => tag_added v v'
  | inl e, inl e' => e = e'
  | _, _ => False
  end.

(** Two results of a driver operation, the first with the flag off and
    the second with the flag on: the same result, but for the
    [FromWrapper] that is around a yielded item when the flag is on. *)
Definition tagged_when_set (off on : result answer) : Prop :=
  match off, on with
  | inr (AObject v), inr (AObject v') => tag_added v v'
  | inr a, inr a' => a = a'
  | inl e, inl e' => e = e'
  | _, _ => False
  end.

(** What the body of [coro] (lines 128-132) does when it is resumed. *)
Definition coro_step (func : arguments -> result object) (l : coro_locals)
    (inp : resume) : step coro_locals :=
  match l with
  | coro_entry args =>
      match func args with
      | inl e => StepRaise e
      | inr res =>
          if isinstance_Future res || inspect_isgenerator res then
            StepYieldFrom res coro_yield_offset coro_yielded
          else StepRaise (Return [res])
      end
  | coro_yielded =>
      match inp with
      | RSend res => StepRaise (Return [res])
      | RThrow e => StepRaise e
      end
  end.

(** A generator function that delegates through [From]:
    [def forward(fut): assert isinstance(fut, Future);
     value = yield From(fut); raise Return(value)].
    The frame holds [fut] until the [yield]. *)
Definition forward_step (l : option object) (inp : resume) : step (option object) :=
  match l with
  | Some fut =>
      match inp with
      | RThrow e => StepRaise e
      | RSend _ =>
          if isinstance_Future fut then StepYieldFrom fut 12%nat None
          else StepRaise (AssertionError VNone)
      end
  | None =>
      match inp with
      | RSend value => StepRaise (Return [value])
      | RThrow e => StepRaise e
      end
  end.

Definition forward_code : code :=
  {| co_name := "forward";
     co_locals := option object;
     co_entry := fun args =>
       match args with
       | ([fut], []) => Some fut
       | _ => Some VNone
       end;
     co_resume := fun l DEBUG inp => through_From DEBUG (forward_step l inp) |}.

Definition forward : pyfunc :=
  {| func_attrs := toplevel_attributes "forward";
     func_code := GeneratorCode forward_code |}.

(** *** Notions used for the destruction of a wrapper *)

(** [needle] occurs in [hay]. *)
Definition contains (needle hay : string) : Prop :=
  exists pre suf, hay = (pre ++ needle ++ suf)%string.

(** The operations after which a generator is no longer at its entry
    point: [next] and [send(None)] run the body to its first [yield] or to
    its end, [throw] and [close] end the generator.  A [send] of another
    value is refused by a generator that has not started, and reading an
    attribute runs nothing. *)
Definition leaves_entry_point (op : driver_op) : bool :=
  match op with
  | op_next | op_throw _ | op_close => true
  | op_send v => is_None v
  | _ => false
  end.

(** *** The methods as a driver may call them *)

(** A call of a method of a coroutine object with the positional
    arguments as the driver wrote them, or the read of an attribute.  The
    first argument of [throw] is the exception to raise, an instance;
    [more] holds the arguments after it: the value and the traceback of
    [throw(type, value, traceback)]. *)
Inductive method_call : Type :=
| call_next
| call_send (args : list object)
| call_throw (exc : exn) (more : list object)
| call_close
| read_gi_frame
| read_gi_running
| read_gi_code.

Definition is_traceback (v : object) : bool :=
  match v with
  | VObject cls _ => String.eqb cls "traceback"
  | _ => false
  end.

(** [g.send] of a generator takes exactly one argument. *)
Definition generator_send_args (g : object) (args : list object) : M object :=
  match args with
  | [v] => generator_send g v
  | _ => raise (TypeError "send() takes exactly one argument")
  end.

(** [g.throw] of a generator takes one to three arguments, after CPython's
    [gen_throw]: the traceback is [None] or a traceback object, and with an
    exception instance as the first argument the value is [None]; a call
    that is refused does not reach the body. *)
Definition generator_throw_args (g : object) (exc : exn) (more : list object) : M object :=
  match more with
  | [] => generator_throw g exc
  | [val] =>
      if is_None val then generator_throw g exc
      else raise (TypeError "instance exception may not have a separate value")
  | [val; tb] =>
      if negb (is_None tb || is_traceback tb) then
        raise (TypeError "throw() third argument must be a traceback object")
      else if is_None val then generator_throw g exc
      else raise (TypeError "instance exception may not have a separate value")
  | _ => raise (TypeError "throw expected at most 3 arguments")
  end.

(** [CoroWrapper.throw] is declared with the one parameter [exc] (line
    87): a call with more arguments fails when the arguments are bound. *)
Definition CoroWrapper_throw_args (self : ref) (exc : exn) (more : list object) : M object :=
  match more with
  | [] => CoroWrapper_throw self exc
  | _ => raise (TypeError "throw() takes exactly 2 arguments")
  end.

(** The call applied to a native generator object. *)
Definition generator_method (g : object) (c : method_call) : M answer :=
  match c with
  | call_next => fmap_M AObject (next g)
  | call_send args => fmap_M AObject (generator_send_args g args)
  | call_throw exc more => fmap_M AObject (generator_throw_args g exc more)
  | call_close => fmap_M AObject (generator_close g)
  | read_gi_frame => fmap_M AFrame (generator_gi_frame g)
  | read_gi_running => fmap_M ABool (generator_gi_running g)
  | read_gi_code => fmap_M ACode (generator_gi_code g)
  end.

(** The call applied to a [CoroWrapper] instance (lines 75-103). *)
Definition CoroWrapper_method (self : ref) (c : method_call) : M answer :=
  match c with
  | call_next => fmap_M AObject (CoroWrapper___next__ self)
  | call_send args => fmap_M AObject (CoroWrapper_send self args)
  | call_throw exc more => fmap_M AObject (CoroWrapper_throw_args self exc more)
  | call_close => fmap_M AObject (CoroWrapper_close self)
  | read_gi_frame => fmap_M AFrame (CoroWrapper_gi_frame self)
  | read_gi_running => fmap_M ABool (CoroWrapper_gi_running self)
  | read_gi_code => fmap_M ACode (CoroWrapper_gi_code self)
  end.

(** A driver operation written as a call: [send] with its one value,
    [throw] with the exception alone. *)
Definition as_call (op : driver_op) : method_call :=
  match op with
  | op_next => call_next
  | op_send v => call_send [v]
  | op_throw e => call_throw e []
  | op_close => call_close
  | op_gi_frame => read_gi_frame
  | op_gi_running => read_gi_running
  | op_gi_code => read_gi_code
  end.

(** The calls at the arity of the generator protocol. *)
Definition protocol_arity (c : method_call) : bool :=
  match c with
  | call_send args => Nat.eqb (length args) 1
  | call_throw _ more => Nat.eqb (length more) 0
  | _ => true
  end.

(** The statement that a [CoroWrapper] is a transparent proxy: whatever a
    driver calls on the wrapper has the result, or raises the exception,
    and has the effect of the same call on the wrapped generator. *)
Definition transparent_proxy : Prop :=
  forall self o r w c,
    wrappers w !! self = Some o ->
    CoroWrapper.gen o = Some (VGenerator r) ->
    CoroWrapper_method self c w = generator_method (VGenerator r) c w.

(** *** Notions used for the classifier of functions *)

(** The function object [coroutine] returns where it returns [func]
    itself (a generator function, marked with the debug flag off): [func]
    with the attribute of line 152. *)
Definition tagged (func : pyfunc) : pyfunc :=
  {| func_attrs := setattr "_is_coroutine" (AttrObject (VBool true)) (func_attrs func);
     func_code := func_code func |}.

(** [f] was produced by the marking step. *)
Definition produced_by_coroutine (f : callable) : Prop :=
  exists func w, f = coroutine func w.

(** The statement that [iscoroutinefunction] tells the callables the
    marking step produced from all others: true of the former, false of
    every other callable. *)
Definition no_false_positives : Prop :=
  (forall func w, iscoroutinefunction (coroutine func w) = AttrObject (VBool true)) /\
  (forall f, ~ produced_by_coroutine f ->
             iscoroutinefunction f = AttrObject (VBool false)).

(** A function that was never passed to [coroutine]:
    [@functools.wraps(countdown) def traced(n): return None], defined
    after [countdown] was marked with the debug flag off. *)
Definition traced : callable :=
  {| attrs := functools_wraps (tagged countdown) (def_attributes "traced");
     call := fun _ _ => ret VNone |}.

(** ** Properties *)

(** *** The termination signal *)

(** C4: [Return] follows the arity rule in both construction strategies:
    no argument carries [None], one argument carries that argument, two
    or more carry the tuple of them in order; the value read from the
    signal is the same whichever strategy built it. *)
Theorem Return_arity_rule :
  (exn_value (Return_function []) = Some VNone /\
   exn_value (Return___init__ []) = Some VNone) /\
  (forall x, exn_value (Return_function [x]) = Some x /\
             exn_value (Return___init__ [x]) = Some x) /\
  (forall x y rest,
      exn_value (Return_function (x :: y :: rest)) = Some (VTuple (x :: y :: rest)) /\
      exn_value (Return___init__ (x :: y :: rest)) = Some (VTuple (x :: y :: rest))) /\
  (forall args, exn_value (Return_function args) = exn_value (Return___init__ args)) /\
  (forall args, exn_value (Return args) = exn_value (Return_function args)).
Proof.
  assert (Hsame : forall args,
             exn_value (Return_function args) = exn_value (Return___init__ args)).
  { intros [|x [|y rest]]; reflexivity. }
  split; [split; reflexivity|].
  split; [intros x; split; reflexivity|].
  split; [intros x y rest; split; reflexivity|].
  split; [exact Hsame|].
  intros args. unfold Return. destruct PY33; [reflexivity|].
  symmetry. apply Hsame.
Qed.

(** C5: destroying a tracked [Return] whose [raised] flag is still false
    logs exactly one record, at error level, whose argument is the carried
    value; destroying one whose flag was set logs nothing; in both cases
    [__del__] returns normally. *)
Theorem Return_del_diagnostic :
  (forall value w,
      Return___del__ (ReturnExc value false) w
      = (inr tt, set_log (log w ++ [Return_diagnostic value]) w)) /\
  (forall value w, Return___del__ (ReturnExc value true) w = (inr tt, w)) /\
  (forall args w,
      exists value,
        exn_value (Return___init__ args) = Some value /\
        Return___del__ (Return___init__ args) w
        = (inr tt, set_log (log w ++ [Return_diagnostic value]) w)) /\
  (forall self w, fst (Return___del__ self w) = inr tt).
Proof.
  split; [reflexivity|].
  split; [reflexivity|].
  split.
  - intros args w. unfold Return___init__. eexists. split; reflexivity.
  - intros self w. destruct self as [| v [|] | | | | | | |]; reflexivity.
Qed.

(** *** The delegation tag *)

Lemma FromWrapper_never_nests obj tag :
  FromWrapper obj = inr tag ->
  exists inner, tag = VFromWrapper inner /\ isinstance_FromWrapper inner = false.
Proof.
  unfold FromWrapper. intros H.
  destruct obj; try (inversion H; subst; eexists; split; reflexivity).
  destruct (isinstance_FromWrapper obj) eqn:E; simpl in H; [discriminate|].
  inversion H; subst. eauto.
Qed.

(** C3: [From] is idempotent, whatever the debug flag: applying it to its
    own result gives the same outcome as applying it once; on an awaitable
    it succeeds, and tags it once in debug mode.  A [FromWrapper] that the
    constructor returns never holds another [FromWrapper].  With the flag
    off [From] returns its argument itself; it touches no state and never
    raises. *)
Theorem From_idempotent_never_nests :
  (forall DEBUG x, and_then (From DEBUG x) (From DEBUG) = From DEBUG x) /\
  (forall DEBUG x,
      isinstance_Future x || inspect_isgenerator x = true ->
      From DEBUG x = inr (if DEBUG then VFromWrapper x else x) /\
      and_then (From DEBUG x) (From DEBUG) = inr (if DEBUG then VFromWrapper x else x)) /\
  (forall obj tag,
      FromWrapper obj = inr tag ->
      exists inner, tag = VFromWrapper inner /\ isinstance_FromWrapper inner = false) /\
  (forall obj tag,
      From true obj = inr tag ->
      exists inner, tag = VFromWrapper inner /\ isinstance_FromWrapper inner = false) /\
  (forall obj, From false obj = inr obj).
Proof.
  split; [|split; [|split; [|split]]].
  - intros [|] x; [|reflexivity].
    unfold From; simpl.
    destruct x; try reflexivity.
    unfold FromWrapper at 1 3.
    destruct (isinstance_FromWrapper x) eqn:E; simpl; [reflexivity|].
    rewrite E. reflexivity.
  - intros [|] x Hx; destruct x; try discriminate; split; reflexivity.
  - exact FromWrapper_never_nests.
  - intros obj tag H. apply (FromWrapper_never_nests obj). exact H.
  - reflexivity.
Qed.

(** *** The classifiers *)

(** C9: [iscoroutine] answers by the type of the object alone: true for a
    [CoroWrapper] instance, for a generator object, and for an instance of
    asyncio's [CoroWrapper] where asyncio could be imported; false for
    every other object. *)
Theorem iscoroutine_three_shapes : forall obj,
  iscoroutine obj =
  match obj with
  | VCoroWrapper _ => true
  | VAsyncioCoroWrapper _ => asyncio_is_not_None
  | VGenerator _ => true
  | _ => false
  end.
Proof.
  intros obj. unfold iscoroutine, isinstance__COROUTINE_TYPES.
  destruct asyncio_is_not_None, obj; reflexivity.
Qed.

Lemma functools_wraps_copies wrapped a k v :
  k <> "__wrapped__" ->
  __dict__ (func_attrs wrapped) !! k = Some v ->
  __dict__ (functools_wraps wrapped a) !! k = Some v.
Proof.
  intros Hk Hv. unfold functools_wraps. simpl.
  destruct PY3; [destruct wrapped_set_last|].
  - rewrite lookup_insert_ne by congruence. apply lookup_union_Some_l. exact Hv.
  - apply lookup_union_Some_l. exact Hv.
  - apply lookup_union_Some_l. exact Hv.
Qed.

(** C8, as amended: [iscoroutinefunction] is true of whatever [coroutine]
    returns, for a plain function and for a generator function, with the
    debug flag on or off when the decorator ran, and it is false of every
    callable that has no attribute [_is_coroutine], a function fresh from
    its [def] among them.  It is one lookup of that attribute and answers
    with the attribute's value, whoever set it.  [functools.wraps] copies
    the attribute with the dictionary: a callable defined with it around a
    function that carries the attribute, as the function [coroutine]
    returned where it returns [func] itself does, answers true without
    having been passed to [coroutine]. *)
Theorem iscoroutinefunction_reads_attribute :
  (forall func w, iscoroutinefunction (coroutine func w) = AttrObject (VBool true)) /\
  (forall f : callable,
      __dict__ (attrs f) !! "_is_coroutine" = None ->
      iscoroutinefunction f = AttrObject (VBool false)) /\
  (forall name c,
      iscoroutinefunction
        (callable_of_pyfunc {| func_attrs := toplevel_attributes name; func_code := c |})
      = AttrObject (VBool false)) /\
  (forall (f : callable) v,
      __dict__ (attrs f) !! "_is_coroutine" = Some v ->
      iscoroutinefunction f = v) /\
  (forall func c w,
      func_code func = GeneratorCode c -> _DEBUG w = false ->
      coroutine func w = callable_of_pyfunc (tagged func)) /\
  (forall wrapped a body v,
      __dict__ (func_attrs wrapped) !! "_is_coroutine" = Some v ->
      iscoroutinefunction {| attrs := functools_wraps wrapped a; call := body |} = v) /\
  (forall func a body,
      iscoroutinefunction {| attrs := functools_wraps (tagged func) a; call := body |}
      = AttrObject (VBool true)).
Proof.
  split; [|split; [|split; [|split; [|split; [|split]]]]].
  - intros func w. unfold iscoroutinefunction, coroutine. simpl.
    rewrite lookup_insert_eq. reflexivity.
  - intros f H. unfold iscoroutinefunction. rewrite H. reflexivity.
  - intros name c. reflexivity.
  - intros f v H. unfold iscoroutinefunction. rewrite H. reflexivity.
  - intros func c w Hc Hd. unfold coroutine. rewrite Hc, Hd. reflexivity.
  - intros wrapped a body v H. unfold iscoroutinefunction. cbn [attrs].
    rewrite (functools_wraps_copies wrapped a "_is_coroutine" v); [reflexivity| |exact H].
    intros E. discriminate E.
  - intros func a body. unfold iscoroutinefunction. cbn [attrs].
    rewrite (functools_wraps_copies (tagged func) a "_is_coroutine"
               (AttrObject (VBool true))); [reflexivity| |].
    + intros E. discriminate E.
    + simpl. apply lookup_insert_eq.
Qed.

(** *** The generator protocol *)

Ltac unfold_M :=
  unfold gen_close, gen_send_ex, run_frame, bind, lookup_generator, store_generator,
    read__DEBUG, raise, ret, lift, fmap_M in *.

Lemma only_generator_refl r w : only_generator r w w.
Proof. repeat split; reflexivity. Qed.

Lemma only_generator_trans r w1 w2 w3 :
  only_generator r w1 w2 -> only_generator r w2 w3 -> only_generator r w1 w3.
Proof.
  intros (A1 & A2 & A3 & A4 & A5) (B1 & B2 & B3 & B4 & B5).
  repeat split; try congruence.
  intros j Hj. rewrite B5, A5; auto.
Qed.

Lemma only_generator_store r g w :
  only_generator r w (set_generators (<[r:=g]> (generators w)) w).
Proof.
  repeat split; simpl.
  - apply length_insert.
  - intros j Hj. apply list_lookup_insert_ne. congruence.
Qed.

Lemma gen_send_ex_only r inp w res w' :
  gen_send_ex r inp w = (res, w') -> only_generator r w w'.
Proof.
  unfold_M. intros H.
  destruct (generators w !! r) as [g|]; [|inversion H; apply only_generator_refl].
  destruct (gi_running g); [inversion H; apply only_generator_refl|].
  destruct (gi_frame g) as [f|].
  - destruct (Z.eqb (f_lasti f) (-1)).
    + destruct inp as [v|e].
      * destruct (is_None v).
        -- destruct (co_resume (f_code f) (f_locals f) (_DEBUG w) (RSend v));
             inversion H; apply only_generator_store.
        -- inversion H; apply only_generator_refl.
      * inversion H; apply only_generator_store.
    + destruct (co_resume (f_code f) (f_locals f) (_DEBUG w) inp);
        inversion H; apply only_generator_store.
  - destruct inp; inversion H; apply only_generator_refl.
Qed.

Lemma was_started_store (r : ref) g w :
  (r < length (generators w))%nat ->
  match gi_frame g with None => True | Some f => 0 <= f_lasti f end ->
  was_started r (set_generators (<[r:=g]> (generators w)) w).
Proof.
  intros Hr Hg. exists g. split; [|exact Hg].
  simpl. apply list_lookup_insert_eq. exact Hr.
Qed.

Lemma gen_send_ex_started r inp w res w' :
  was_started r w -> gen_send_ex r inp w = (res, w') -> was_started r w'.
Proof.
  intros (g & Hg & Hf) H. unfold_M. rewrite Hg in H.
  assert (Hr : (r < length (generators w))%nat) by (eapply lookup_lt_Some; eauto).
  assert (Hw : was_started r w) by (exists g; auto).
  destruct (gi_running g); [inversion H; subst; exact Hw|].
  destruct (gi_frame g) as [f|].
  - destruct (Z.eqb_spec (f_lasti f) (-1)) as [E|E]; [lia|].
    destruct (co_resume (f_code f) (f_locals f) (_DEBUG w) inp);
      inversion H; apply was_started_store; simpl; auto; lia.
  - destruct inp; inversion H; subst; exact Hw.
Qed.

Lemma gen_send_ex_first r w res w' :
  never_started r w -> gen_send_ex r (RSend VNone) w = (res, w') -> was_started r w'.
Proof.
  intros (g & f & Hg & Hrun & Hf & Hl) H. unfold_M. rewrite Hg, Hrun, Hf, Hl in H.
  assert (Hr : (r < length (generators w))%nat) by (eapply lookup_lt_Some; eauto).
  simpl in H.
  destruct (co_resume (f_code f) (f_locals f) (_DEBUG w) (RSend VNone));
    inversion H; apply was_started_store; simpl; auto; lia.
Qed.

Lemma on_generator_only r op w res w' :
  on_generator (VGenerator r) op w = (res, w') -> only_generator r w w'.
Proof.
  destruct op; simpl; unfold fmap_M, bind, ret; intros H.
  1-3: match type of H with
       | context [gen_send_ex ?a ?b ?c] =>
           destruct (gen_send_ex a b c) as [[e0|v0] w1] eqn:E;
           inversion H; subst; eapply gen_send_ex_only; eauto
       end.
  - unfold gen_close in H.
    destruct (gen_send_ex r (RThrow GeneratorExit) w) as [[e|v] w1] eqn:E.
    + destruct (isinstance_StopIteration e || is_GeneratorExit e);
        inversion H; subst; eapply gen_send_ex_only; eauto.
    + inversion H; subst; eapply gen_send_ex_only; eauto.
  - unfold lookup_generator in H.
    destruct (generators w !! r); inversion H; apply only_generator_refl.
  - unfold lookup_generator in H.
    destruct (generators w !! r); inversion H; apply only_generator_refl.
  - unfold lookup_generator in H.
    destruct (generators w !! r); inversion H; apply only_generator_refl.
Qed.

Lemma on_generator_started r op w res w' :
  was_started r w -> on_generator (VGenerator r) op w = (res, w') -> was_started r w'.
Proof.
  intros Hs.
  destruct op; simpl; unfold fmap_M, bind, ret; intros H.
  1-3: match type of H with
       | context [gen_send_ex ?a ?b ?c] =>
           destruct (gen_send_ex a b c) as [[e0|v0] w1] eqn:E;
           inversion H; subst; eapply gen_send_ex_started; eauto
       end.
  - unfold gen_close in H.
    destruct (gen_send_ex r (RThrow GeneratorExit) w) as [[e|v] w1] eqn:E.
    + destruct (isinstance_StopIteration e || is_GeneratorExit e);
        inversion H; subst; eapply gen_send_ex_started; eauto.
    + inversion H; subst; eapply gen_send_ex_started; eauto.
  - unfold lookup_generator in H.
    destruct (generators w !! r); inversion H; subst; exact Hs.
  - unfold lookup_generator in H.
    destruct (generators w !! r); inversion H; subst; exact Hs.
  - unfold lookup_generator in H.
    destruct (generators w !! r); inversion H; subst; exact Hs.
Qed.

(** *** The debug proxy *)

Lemma self_gen_eq self o g w :
  wrappers w !! self = Some o -> CoroWrapper.gen o = Some g ->
  self_gen self w = (inr g, w).
Proof.
  intros H1 H2. unfold self_gen, bind, lookup_wrapper. rewrite H1, H2. reflexivity.
Qed.

Lemma on_CoroWrapper_forwards self o g w op :
  wrappers w !! self = Some o -> CoroWrapper.gen o = Some g ->
  on_CoroWrapper self op w = on_generator g op w.
Proof.
  intros H1 H2.
  destruct op; simpl;
    unfold fmap_M, CoroWrapper___next__, CoroWrapper_send, CoroWrapper_throw,
      CoroWrapper_close, CoroWrapper_gi_frame, CoroWrapper_gi_running,
      CoroWrapper_gi_code, bind;
    rewrite (self_gen_eq self o g w H1 H2); reflexivity.
Qed.

Lemma protocol_arity_as_call c :
  protocol_arity c = true -> exists op, c = as_call op.
Proof.
  destruct c as [|args|exc more| | | |]; simpl; intros H.
  - exists op_next. reflexivity.
  - destruct args as [|v [|v' args]]; try discriminate H. exists (op_send v). reflexivity.
  - destruct more; try discriminate H. exists (op_throw exc). reflexivity.
  - exists op_close. reflexivity.
  - exists op_gi_frame. reflexivity.
  - exists op_gi_running. reflexivity.
  - exists op_gi_code. reflexivity.
Qed.

Lemma CoroWrapper_method_as_call self op w :
  CoroWrapper_method self (as_call op) w = on_CoroWrapper self op w.
Proof. destruct op; reflexivity. Qed.

Lemma generator_method_as_call g op w :
  generator_method g (as_call op) w = on_generator g op w.
Proof. destruct op; reflexivity. Qed.

(** C7, as amended: a [CoroWrapper] is a transparent proxy for the calls
    at the arity of the generator protocol.  For a wrapper around the
    generator [r], [next], [send] with one argument, [throw] with the
    exception alone, [close] and the attributes [gi_frame], [gi_running]
    and [gi_code] have the result, or raise the exception, of the same call
    on [r] itself and leave the same world, and so do whole sessions of
    such calls.  At other arities the two differ.  [send] with no or with
    several arguments resumes the wrapped generator with the tuple of the
    arguments, where the generator's own [send] raises [TypeError] and
    changes nothing.  [throw] with further arguments raises [TypeError] in
    the wrapper and changes nothing, where the generator's own [throw]
    raises the exception in the body if the further arguments are [None]. *)
Theorem CoroWrapper_proxy_at_protocol_arity self o r w :
  wrappers w !! self = Some o ->
  CoroWrapper.gen o = Some (VGenerator r) ->
  (forall c, protocol_arity c = true ->
      CoroWrapper_method self c w = generator_method (VGenerator r) c w) /\
  (forall calls, forallb protocol_arity calls = true ->
      session (CoroWrapper_method self) calls w
      = session (generator_method (VGenerator r)) calls w) /\
  (forall op,
      on_CoroWrapper self op w = CoroWrapper_method self (as_call op) w /\
      on_generator (VGenerator r) op w = generator_method (VGenerator r) (as_call op) w /\
      protocol_arity (as_call op) = true) /\
  (forall args, length args <> 1%nat ->
      CoroWrapper_method self (call_send args) w
      = fmap_M AObject (gen_send_ex r (RSend (VTuple args))) w /\
      exists m, generator_method (VGenerator r) (call_send args) w = (inl (TypeError m), w)) /\
  (forall exc more, more <> [] ->
      (exists m, CoroWrapper_method self (call_throw exc more) w = (inl (TypeError m), w)) /\
      (forallb is_None more = true -> (length more <= 2)%nat ->
       generator_method (VGenerator r) (call_throw exc more) w
       = fmap_M AObject (gen_send_ex r (RThrow exc)) w)).
Proof.
  intros Hw Hg.
  assert (Hone : forall w0 c, wrappers w0 !! self = Some o -> protocol_arity c = true ->
             CoroWrapper_method self c w0 = generator_method (VGenerator r) c w0).
  { intros w0 c Hw0 Hc. destruct (protocol_arity_as_call c Hc) as [op ->].
    rewrite CoroWrapper_method_as_call, generator_method_as_call.
    eapply on_CoroWrapper_forwards; eauto. }
  split; [intros c Hc; apply Hone; assumption|]. split; [|split; [|split]].
  - intros calls. revert w Hw.
    induction calls as [|c calls IH]; intros w Hw Hall; simpl; [reflexivity|].
    simpl in Hall. apply andb_prop in Hall. destruct Hall as [Hc Hall].
    rewrite (Hone w c Hw Hc).
    destruct (generator_method (VGenerator r) c w) as [res w1] eqn:E.
    rewrite IH; [reflexivity| |exact Hall].
    destruct (protocol_arity_as_call c Hc) as [op ->].
    rewrite generator_method_as_call in E.
    apply on_generator_only in E. destruct E as (_ & E & _).
    rewrite E. exact Hw.
  - intros op. rewrite CoroWrapper_method_as_call, generator_method_as_call.
    split; [reflexivity|]. split; [reflexivity|]. destruct op; reflexivity.
  - intros args Hlen. split.
    + simpl. unfold fmap_M, CoroWrapper_send, bind.
      rewrite (self_gen_eq self o (VGenerator r) w Hw Hg).
      destruct (Nat.eqb_spec (length args) 1) as [E|_]; [contradiction|reflexivity].
    + destruct args as [|v [|v' args]]; simpl in Hlen |- *; try lia;
        eexists; reflexivity.
  - intros exc more Hmore. split.
    + destruct more as [|v more]; [contradiction|]. eexists. reflexivity.
    + intros Hnone Hlen.
      destruct more as [|val [|tb [|x more]]]; simpl in Hlen; try lia; [contradiction| |].
      * simpl in Hnone. apply andb_prop in Hnone. destruct Hnone as [Hv _].
        simpl. unfold fmap_M, bind. rewrite Hv. reflexivity.
      * simpl in Hnone. apply andb_prop in Hnone. destruct Hnone as [Hv Ht].
        apply andb_prop in Ht. destruct Ht as [Ht _].
        simpl. unfold fmap_M, bind. rewrite Hv, Ht. reflexivity.
Qed.

(** C10: [CoroWrapper.send] takes any number of arguments.  Exactly one
    argument is sent to the wrapped generator as it is; no argument sends
    the empty tuple, which is not the resume without a value that
    [__next__] performs; two or more arguments send the tuple of them. *)
Theorem CoroWrapper_send_arity self o r w :
  wrappers w !! self = Some o ->
  CoroWrapper.gen o = Some (VGenerator r) ->
  CoroWrapper_send self [] w = gen_send_ex r (RSend (VTuple [])) w /\
  (forall v, CoroWrapper_send self [v] w = gen_send_ex r (RSend v) w) /\
  (forall x y rest,
      CoroWrapper_send self (x :: y :: rest) w
      = gen_send_ex r (RSend (VTuple (x :: y :: rest))) w) /\
  CoroWrapper___next__ self w = gen_send_ex r (RSend VNone) w.
Proof.
  intros Hw Hg.
  unfold CoroWrapper_send, CoroWrapper___next__, bind.
  rewrite (self_gen_eq self o (VGenerator r) w Hw Hg).
  repeat split; reflexivity.
Qed.

(** *** Calls of a marked function *)

Lemma update_wrapper_last f ws o w :
  update_wrapper (length ws) f (set_wrappers (ws ++ [o]) w)
  = (inr tt, set_wrappers (ws ++ [f o]) w).
Proof.
  unfold update_wrapper. simpl.
  rewrite list_lookup_middle by reflexivity.
  unfold set_wrappers. simpl. do 2 f_equal.
  replace (length ws) with (length ws + 0)%nat by lia.
  rewrite insert_app_r. reflexivity.
Qed.

Lemma bind_inr {A B} (m : M A) (k : A -> M B) w a w' :
  m w = (inr a, w') -> bind m k w = k a w'.
Proof. intros H. unfold bind. rewrite H. reflexivity. Qed.

Lemma del_last_traceback stack (o : CoroWrapper.t) :
  match stack ++ [wrapper_frame] with
  | [] => o
  | tb => set_source_traceback (removelast tb) o
  end = set_source_traceback stack o.
Proof.
  destruct (stack ++ [wrapper_frame]) as [|x l] eqn:El.
  - destruct stack; discriminate.
  - rewrite <- El, removelast_last. reflexivity.
Qed.

Lemma wrapper_creates coro func c args stack w :
  func_code coro = GeneratorCode c ->
  wrapper coro func args stack w
  = (inr (VCoroWrapper (length (wrappers w))),
     set_wrappers
       (wrappers w ++ [created_wrapper (length (generators w)) func stack])
       (set_generators (generators w ++ [created_generator c args]) w)).
Proof.
  intros Hc. unfold wrapper.
  erewrite bind_inr; [|unfold call_pyfunc; rewrite Hc; reflexivity].
  erewrite bind_inr; [|reflexivity].
  erewrite bind_inr; [|apply update_wrapper_last].
  erewrite bind_inr; [|apply update_wrapper_last].
  destruct _PY35 eqn:E35.
  - erewrite bind_inr; [|apply update_wrapper_last].
    erewrite bind_inr; [|apply update_wrapper_last].
    unfold ret, created_wrapper. rewrite E35. cbv beta.
    change (CoroWrapper._source_traceback {| CoroWrapper.gen := ?a; CoroWrapper.func := ?b;
              CoroWrapper._source_traceback := ?c; CoroWrapper.__name__ := ?d;
              CoroWrapper.__qualname__ := ?e; CoroWrapper.__doc__ := ?f |}) with c.
    rewrite del_last_traceback. reflexivity.
  - erewrite bind_inr; [|reflexivity].
    erewrite bind_inr; [|apply update_wrapper_last].
    unfold ret, created_wrapper. rewrite E35. cbv beta.
    change (CoroWrapper._source_traceback {| CoroWrapper.gen := ?a; CoroWrapper.func := ?b;
              CoroWrapper._source_traceback := ?c; CoroWrapper.__name__ := ?d;
              CoroWrapper.__qualname__ := ?e; CoroWrapper.__doc__ := ?f |}) with c.
    rewrite del_last_traceback. reflexivity.
Qed.

Lemma code_of_coro func :
  func_code
    match func_code func with
    | GeneratorCode _ => func
    | PlainCode body =>
        if negb PY3 then
          {| func_attrs := set___wrapped__ func (functools_wraps func (def_attributes "coro"));
             func_code := GeneratorCode (coro_code body) |}
        else
          {| func_attrs := functools_wraps func (def_attributes "coro");
             func_code := GeneratorCode (coro_code body) |}
    end = GeneratorCode (code_of func).
Proof.
  unfold code_of. destruct (func_code func) eqn:E; [|exact E].
  destruct PY3; reflexivity.
Qed.

Lemma call_coroutine_debug func wd args stack w :
  _DEBUG wd = true ->
  call (coroutine func wd) args stack w
  = (inr (VCoroWrapper (length (wrappers w))),
     set_wrappers
       (wrappers w ++ [created_wrapper (length (generators w)) func stack])
       (set_generators (generators w ++ [created_generator (code_of func) args]) w)).
Proof.
  intros Hd. unfold coroutine. rewrite Hd. simpl.
  destruct PY3 eqn:E3; simpl; apply wrapper_creates;
    pose proof (code_of_coro func) as H; rewrite E3 in H; simpl in H;
    destruct (func_code func); exact H.
Qed.

Lemma call_coroutine_plain func wd args stack w :
  _DEBUG wd = false ->
  call (coroutine func wd) args stack w
  = (inr (VGenerator (length (generators w))),
     set_generators (generators w ++ [created_generator (code_of func) args]) w).
Proof.
  intros Hd. unfold coroutine. rewrite Hd. simpl.
  unfold call_pyfunc.
  pose proof (code_of_coro func) as H.
  destruct PY3 eqn:E3; simpl in H |- *;
    destruct (func_code func) eqn:Ef; simpl in H |- *;
    try rewrite Ef; try rewrite H; unfold code_of; rewrite ?Ef; reflexivity.
Qed.

Lemma on_coroutine_denotes c r w op :
  denotes c r w -> on_coroutine c op w = on_generator (VGenerator r) op w.
Proof.
  intros [->|(self & o & -> & Hw & Hg)]; [reflexivity|].
  simpl. eapply on_CoroWrapper_forwards; eauto.
Qed.

Lemma denotes_only c r r' w w' :
  denotes c r w -> only_generator r' w w' -> denotes c r w'.
Proof.
  intros [->|(self & o & -> & Hw & Hg)] (_ & E & _); [left; reflexivity|].
  right. exists self, o. rewrite E. auto.
Qed.

Lemma call_coroutine_denotes func wd args stack w :
  exists c w1,
    call (coroutine func wd) args stack w = (inr c, w1) /\
    isinstance_CoroWrapper c = _DEBUG wd /\
    denotes c (length (generators w)) w1 /\
    generators w1 = generators w ++ [created_generator (code_of func) args] /\
    _DEBUG w1 = _DEBUG w /\ log w1 = log w.
Proof.
  destruct (_DEBUG wd) eqn:Hd.
  - eexists _, _. split; [apply call_coroutine_debug; exact Hd|].
    repeat split. right. eexists _, _. split; [reflexivity|].
    split; [simpl; apply list_lookup_middle; reflexivity|reflexivity].
  - eexists _, _. split; [apply call_coroutine_plain; exact Hd|].
    repeat split. left. reflexivity.
Qed.

Lemma created_never_started r c args w :
  r = length (generators w) ->
  forall w1, generators w1 = generators w ++ [created_generator c args] ->
  never_started r w1.
Proof.
  intros -> w1 E. eexists _, _. rewrite E.
  split; [apply list_lookup_middle; reflexivity|].
  repeat split.
Qed.

Lemma on_generator_first r w res w' :
  never_started r w -> on_generator (VGenerator r) op_next w = (res, w') ->
  was_started r w'.
Proof.
  intros Hn. simpl. unfold fmap_M, bind, ret. intros H.
  destruct (gen_send_ex r (RSend VNone) w) as [[e|v] w1] eqn:E;
    inversion H; subst; eapply gen_send_ex_first; eauto.
Qed.

Lemma session_coroutine c r ops : forall w rs w',
  denotes c r w ->
  session (on_coroutine c) ops w = (rs, w') ->
  only_generator r w w' /\ (was_started r w -> was_started r w').
Proof.
  induction ops as [|op ops IH]; intros w rs w' Hd H; simpl in H.
  - inversion H; subst. split; [apply only_generator_refl|auto].
  - rewrite (on_coroutine_denotes c r w op Hd) in H.
    destruct (on_generator (VGenerator r) op w) as [res w1] eqn:E1.
    destruct (session (on_coroutine c) ops w1) as [rs1 w2] eqn:E2.
    inversion H; subst.
    pose proof (on_generator_only _ _ _ _ _ E1) as Ho1.
    destruct (IH _ _ _ (denotes_only _ _ _ _ _ Hd Ho1) E2) as [Ho Hs].
    split.
    + eapply only_generator_trans; eauto.
    + intros Hw. apply Hs. eapply on_generator_started; eauto.
Qed.

Lemma drive_coroutine resolve c r fuel : forall op w res w',
  denotes c r w ->
  drive fuel resolve c op w = (res, w') ->
  only_generator r w w' /\ (was_started r w -> was_started r w').
Proof.
  induction fuel as [|fuel IH]; intros op w res w' Hd H; simpl in H.
  - inversion H; subst. split; [apply only_generator_refl|auto].
  - rewrite (on_coroutine_denotes c r w op Hd) in H.
    destruct (on_generator (VGenerator r) op w) as [[e|a] w1] eqn:E1.
    + assert (w' = w1) by (destruct (exn_value e); inversion H; reflexivity).
      subst w1. split.
      * eapply on_generator_only; eauto.
      * intros Hw. eapply on_generator_started; eauto.
    + pose proof (on_generator_only _ _ _ _ _ E1) as Ho1.
      destruct a as [item| | |]; try (inversion H; subst; split;
        [exact Ho1|intros Hw; eapply on_generator_started; eauto]).
      destruct (drive fuel resolve c
                  match resolve (untag item) with
                  | inl e => op_throw e
                  | inr v => op_send v
                  end w1) as [[r0 awaited] w2] eqn:E2.
      inversion H; subst.
      destruct (IH _ _ _ _ (denotes_only _ _ _ _ _ Hd Ho1) E2) as [Ho Hs].
      split.
      * eapply only_generator_trans; eauto.
      * intros Hw. apply Hs. eapply on_generator_started; eauto.
Qed.

Lemma gen_send_ex_throw_unstarted r w e :
  never_started r w ->
  exists g,
    generators w !! r = Some g /\
    gen_send_ex r (RThrow e) w
    = (inl e, set_generators (<[r:=finished g]> (generators w)) w).
Proof.
  intros (g & f & Hg & Hrun & Hf & Hl). exists g. split; [exact Hg|].
  unfold gen_send_ex.
  erewrite bind_inr; [|unfold lookup_generator; rewrite Hg; reflexivity].
  rewrite Hrun, Hf, Hl. reflexivity.
Qed.

Lemma gen_send_ex_refused r v w :
  never_started r w -> is_None v = false ->
  gen_send_ex r (RSend v) w
  = (inl (TypeError "can't send non-None value to a just-started generator"), w).
Proof.
  intros (g & f & Hg & Hrun & Hf & Hl) Hv. unfold gen_send_ex.
  erewrite bind_inr; [|unfold lookup_generator; rewrite Hg; reflexivity].
  rewrite Hrun, Hf, Hl, Hv. reflexivity.
Qed.

Lemma was_started_finished (r : ref) g w :
  (r < length (generators w))%nat ->
  was_started r (set_generators (<[r:=finished g]> (generators w)) w).
Proof. intros Hr. apply was_started_store; [exact Hr|exact I]. Qed.

Lemma on_generator_stays r op w :
  never_started r w -> leaves_entry_point op = false ->
  (on_generator (VGenerator r) op w).2 = w.
Proof.
  intros Hn Hop. pose proof Hn as (g & f & Hg & _).
  destruct op; simpl in Hop |- *; try discriminate Hop.
  - unfold fmap_M, bind. rewrite (gen_send_ex_refused r v w Hn Hop). reflexivity.
  - unfold fmap_M, bind, lookup_generator, ret. rewrite Hg. reflexivity.
  - unfold fmap_M, bind, lookup_generator, ret. rewrite Hg. reflexivity.
  - unfold fmap_M, bind, lookup_generator, ret. rewrite Hg. reflexivity.
Qed.

Lemma on_generator_leaves r op w :
  never_started r w -> leaves_entry_point op = true ->
  was_started r (on_generator (VGenerator r) op w).2.
Proof.
  intros Hn Hop. pose proof Hn as (g & f & Hg & _).
  assert (Hr : (r < length (generators w))%nat) by (eapply lookup_lt_Some; eauto).
  assert (Hnext : was_started r (on_generator (VGenerator r) op_next w).2).
  { destruct (on_generator (VGenerator r) op_next w) as [res w'] eqn:E.
    eapply on_generator_first; eauto. }
  destruct op; simpl in Hop; try discriminate Hop.
  - exact Hnext.
  - destruct v; try discriminate Hop. exact Hnext.
  - simpl. unfold fmap_M, bind.
    destruct (gen_send_ex_throw_unstarted r w e Hn) as (g0 & _ & ->). simpl.
    apply was_started_finished. exact Hr.
  - simpl. unfold fmap_M, bind, gen_close.
    destruct (gen_send_ex_throw_unstarted r w GeneratorExit Hn) as (g0 & _ & ->). simpl.
    apply was_started_finished. exact Hr.
Qed.

Lemma session_at_entry c r ops : forall w rs w2,
  denotes c r w -> never_started r w ->
  session (on_coroutine c) ops w = (rs, w2) ->
  only_generator r w w2 /\
  (existsb leaves_entry_point ops = true -> was_started r w2) /\
  (existsb leaves_entry_point ops = false -> w2 = w).
Proof.
  induction ops as [|op ops IH]; intros w rs w2 Hd Hn H; simpl in H.
  - inversion H; subst. split; [apply only_generator_refl|].
    split; [discriminate|reflexivity].
  - rewrite (on_coroutine_denotes c r w op Hd) in H.
    destruct (on_generator (VGenerator r) op w) as [res w1] eqn:E1.
    destruct (session (on_coroutine c) ops w1) as [rs1 w2'] eqn:E2.
    inversion H; subst w2'.
    pose proof (on_generator_only _ _ _ _ _ E1) as Ho1.
    pose proof (denotes_only _ _ _ _ _ Hd Ho1) as Hd1.
    simpl existsb.
    destruct (leaves_entry_point op) eqn:L.
    + pose proof (on_generator_leaves r op w Hn L) as Hs. rewrite E1 in Hs. simpl in Hs.
      destruct (session_coroutine c r ops w1 rs1 w2 Hd1 E2) as [Ho Hk].
      split; [eapply only_generator_trans; eauto|].
      split; [intros _; apply Hk; exact Hs|discriminate].
    + pose proof (on_generator_stays r op w Hn L) as Hs. rewrite E1 in Hs. simpl in Hs.
      subst w1. exact (IH w rs1 w2 Hd Hn E2).
Qed.

Lemma append_assoc_string (a b c : string) : ((a ++ b) ++ c = a ++ b ++ c)%string.
Proof.
  induction a as [|x a IH]; [reflexivity|].
  change (String x ((a ++ b) ++ c) = String x (a ++ b ++ c))%string.
  rewrite IH. reflexivity.
Qed.

Lemma append_empty_r (a : string) : (a ++ EmptyString = a)%string.
Proof.
  induction a as [|x a IH]; [reflexivity|].
  change (String x (a ++ EmptyString) = String x a)%string.
  rewrite IH. reflexivity.
Qed.

Lemma contains_suffix pre s : contains s (pre ++ s)%string.
Proof. exists pre, EmptyString. rewrite append_empty_r. reflexivity. Qed.

Lemma contains_inside pre s hay suf :
  contains s hay -> contains s (pre ++ hay ++ suf)%string.
Proof.
  intros (p & q & ->). exists (pre ++ p)%string, (q ++ suf)%string.
  rewrite !append_assoc_string. reflexivity.
Qed.

Lemma del_when_started self o r w :
  wrappers w !! self = Some o ->
  CoroWrapper.gen o = Some (VGenerator r) ->
  was_started r w ->
  CoroWrapper___del__ self w = (inr tt, w).
Proof.
  intros Hw Hg (g & Hr & Hf).
  unfold CoroWrapper___del__.
  erewrite bind_inr; [|unfold lookup_wrapper; rewrite Hw; reflexivity].
  rewrite Hg. unfold bind, getattr_gi_frame, object_gi_frame. rewrite Hr.
  destruct (gi_frame g) as [f|]; [|reflexivity].
  destruct (Z.eqb_spec (f_lasti f) (-1)); [lia|reflexivity].
Qed.

Lemma del_when_never_started self o r w :
  wrappers w !! self = Some o ->
  CoroWrapper.gen o = Some (VGenerator r) ->
  never_started r w ->
  CoroWrapper___del__ self w
  = (inr tt,
     set_log (log w ++ [never_yielded_diagnostic (CoroWrapper.func o)
                          (CoroWrapper._source_traceback o)]) w).
Proof.
  intros Hw Hg (g & f & Hr & _ & Hf & Hl).
  unfold CoroWrapper___del__.
  erewrite bind_inr; [|unfold lookup_wrapper; rewrite Hw; reflexivity].
  rewrite Hg. unfold bind, getattr_gi_frame, object_gi_frame. rewrite Hr, Hf, Hl.
  reflexivity.
Qed.

(** C6: in debug mode a call of a marked function returns a [CoroWrapper]
    and logs nothing.  Destroying the wrapper while the computation is at
    its entry point (after no operation, or after operations that do not
    resume it: refused sends, reads of attributes) logs exactly one record,
    at error level.  Its message is the text of lines 112-115 around what
    [_format_callback] renders for the originating function and around the
    formatted call stack of the caller, trailing white space stripped: it
    contains the formatted stack, and it contains the function's name
    where the rendering of the function does.  Destroying the wrapper
    after a session in which some operation resumed the computation or
    ended it ([next], [send(None)], [throw], [close]), or after the
    scheduler drove it, logs nothing.  [__del__] returns normally in each
    case. *)
Theorem CoroWrapper_del_diagnostic func wd args stack w :
  _DEBUG wd = true ->
  exists self w1 d,
    call (coroutine func wd) args stack w = (inr (VCoroWrapper self), w1) /\
    log w1 = log w /\
    levelname d = "ERROR" /\
    msg d = ("Coroutine " ++ _format_callback func [] ++ " was never yielded from"
             ++ newline ++ "Coroutine object created at (most recent call last):"
             ++ newline ++ str_rstrip (String.concat "" (traceback_format_list stack)))%string /\
    msg_args d = [] /\
    contains (str_rstrip (String.concat "" (traceback_format_list stack))) (msg d) /\
    (contains (__name__ (func_attrs func)) (_format_callback func []) ->
     contains (__name__ (func_attrs func)) (msg d)) /\
    (forall ops rs w2,
        existsb leaves_entry_point ops = false ->
        session (on_coroutine (VCoroWrapper self)) ops w1 = (rs, w2) ->
        w2 = w1 /\
        CoroWrapper___del__ self w2 = (inr tt, set_log (log w2 ++ [d]) w2)) /\
    (forall ops rs w2,
        existsb leaves_entry_point ops = true ->
        session (on_coroutine (VCoroWrapper self)) ops w1 = (rs, w2) ->
        CoroWrapper___del__ self w2 = (inr tt, w2)) /\
    (forall fuel resolve op res w2,
        leaves_entry_point op = true ->
        drive (S fuel) resolve (VCoroWrapper self) op w1 = (res, w2) ->
        CoroWrapper___del__ self w2 = (inr tt, w2)).
Proof.
  intros Hd.
  set (r := length (generators w)).
  set (o := created_wrapper r func stack).
  exists (length (wrappers w)). eexists. exists (never_yielded_diagnostic func stack).
  split; [apply call_coroutine_debug; exact Hd|].
  match goal with |- log ?x = _ /\ _ => set (w1 := x) end.
  assert (Hw : wrappers w1 !! length (wrappers w) = Some o)
    by (apply list_lookup_middle; reflexivity).
  assert (Hg : CoroWrapper.gen o = Some (VGenerator r)) by reflexivity.
  assert (Hn : never_started r w1)
    by (eapply created_never_started; reflexivity).
  assert (Hden : denotes (VCoroWrapper (length (wrappers w))) r w1)
    by (right; eauto).
  split; [reflexivity|]. split; [reflexivity|]. split; [reflexivity|].
  split; [reflexivity|].
  split; [|split; [|split; [|split]]].
  - unfold never_yielded_diagnostic, never_yielded_message. cbn [msg].
    rewrite <- !append_assoc_string. apply contains_suffix.
  - intros Hname. unfold never_yielded_diagnostic, never_yielded_message. cbn [msg].
    apply contains_inside. exact Hname.
  - intros ops rs w2 Hops H.
    destruct (session_at_entry _ r ops w1 rs w2 Hden Hn H) as (_ & _ & Hsame).
    specialize (Hsame Hops). subst w2. split; [reflexivity|].
    rewrite (del_when_never_started _ o r w1 Hw Hg Hn). reflexivity.
  - intros ops rs w2 Hops H.
    destruct (session_at_entry _ r ops w1 rs w2 Hden Hn H) as (Ho & Hs & _).
    apply (del_when_started _ o r); auto.
    destruct Ho as (_ & -> & _). exact Hw.
  - intros fuel resolve op res w2 Hop H.
    cbn [drive] in H.
    rewrite (on_coroutine_denotes _ r w1 op Hden) in H.
    pose proof (on_generator_leaves r op w1 Hn Hop) as Hs1.
    destruct (on_generator (VGenerator r) op w1) as [[e|a] w1'] eqn:E1; simpl in Hs1.
    + assert (w2 = w1') by (destruct (exn_value e); inversion H; reflexivity).
      subst w1'.
      pose proof (on_generator_only _ _ _ _ _ E1) as Ho1.
      apply (del_when_started _ o r); auto.
      destruct Ho1 as (_ & -> & _). exact Hw.
    + pose proof (on_generator_only _ _ _ _ _ E1) as Ho1.
      destruct a as [item| | |];
        try (inversion H; subst; apply (del_when_started _ o r); auto;
             destruct Ho1 as (_ & -> & _); exact Hw).
      destruct (drive fuel resolve (VCoroWrapper (length (wrappers w)))
                  match resolve (untag item) with
                  | inl e => op_throw e
                  | inr v => op_send v
                  end w1') as [[r0 awaited] w2'] eqn:E2.
      inversion H; subst w2'.
      destruct (drive_coroutine resolve _ r fuel _ _ _ _
                  (denotes_only _ _ _ _ _ Hden Ho1) E2) as [Ho Hs].
      apply (del_when_started _ o r); auto.
      destruct Ho as (_ & -> & _). destruct Ho1 as (_ & -> & _). exact Hw.
Qed.

(** *** The synthesized trampoline *)

Lemma gen_send_ex_runs r g f inp w :
  generators w !! r = Some g ->
  gi_running g = false ->
  gi_frame g = Some f ->
  (f_lasti f = -1 -> inp = RSend VNone) ->
  gen_send_ex r inp w = run_frame r g f inp w.
Proof.
  intros Hr Hrun Hf Hinp. unfold gen_send_ex.
  erewrite bind_inr; [|unfold lookup_generator; rewrite Hr; reflexivity].
  rewrite Hrun, Hf.
  destruct (Z.eqb_spec (f_lasti f) (-1)) as [E|E]; [|reflexivity].
  rewrite (Hinp E). reflexivity.
Qed.

Lemma exn_value_Return res : exn_value (Return [res]) = Some res.
Proof. unfold Return. destruct PY33; reflexivity. Qed.

Lemma coro_first_next_plain r body args res w :
  generators w !! r = Some (created_generator (coro_code body) args) ->
  body args = inr res ->
  isinstance_Future res || inspect_isgenerator res = false ->
  gen_send_ex r (RSend VNone) w
  = (inl (Return [res]),
     set_generators (<[r:=coro_finished body]> (generators w)) w).
Proof.
  intros Hr Hb Ha.
  erewrite gen_send_ex_runs; [|exact Hr|reflexivity|reflexivity|reflexivity].
  unfold run_frame, bind, read__DEBUG. simpl.
  rewrite Hb, Ha. reflexivity.
Qed.

Lemma coro_first_next_awaitable r body args res w :
  generators w !! r = Some (created_generator (coro_code body) args) ->
  body args = inr res ->
  isinstance_Future res || inspect_isgenerator res = true ->
  gen_send_ex r (RSend VNone) w
  = (inr (if _DEBUG w then VFromWrapper res else res),
     set_generators (<[r:=coro_suspended body]> (generators w)) w).
Proof.
  intros Hr Hb Ha.
  erewrite gen_send_ex_runs; [|exact Hr|reflexivity|reflexivity|reflexivity].
  unfold run_frame, bind, read__DEBUG. simpl.
  rewrite Hb, Ha.
  destruct (_DEBUG w); simpl; [|reflexivity].
  destruct res; try discriminate; reflexivity.
Qed.

Lemma coro_resumed r body inp w :
  generators w !! r = Some (coro_suspended body) ->
  gen_send_ex r inp w
  = (inl match inp with RSend res => Return [res] | RThrow e => e end,
     set_generators (<[r:=coro_finished body]> (generators w)) w).
Proof.
  intros Hr.
  erewrite gen_send_ex_runs; [|exact Hr|reflexivity|reflexivity|simpl; lia].
  unfold run_frame, bind, read__DEBUG. simpl.
  destruct inp; reflexivity.
Qed.

(** C1: for a plain function marked by [coroutine], with the debug flag
    on or off at decoration and at call time, the computation a call
    returns ends with the value the function computed.  Where the function
    returns neither a [Future] nor a generator, the first [next] raises the
    signal [Return] carrying that value, and driving the computation ends
    with it, nothing having been waited for.  Where it returns one, the
    first [next] yields [From] of it, any value sent in next is carried out
    by the signal, and driving the computation waits for exactly that
    awaitable, once, and ends with what it resolved to. *)
Theorem trampoline_result func body wd args stack w res :
  func_code func = PlainCode body ->
  body args = inr res ->
  exists c w1,
    call (coroutine func wd) args stack w = (inr c, w1) /\
    (isinstance_Future res || inspect_isgenerator res = false ->
     (on_coroutine c op_next w1).1 = inl (Return [res]) /\
     exn_value (Return [res]) = Some res /\
     forall resolve fuel,
       (run_until_complete (S fuel) resolve (coroutine func wd) args stack w).1
       = (Done res, [])) /\
    (isinstance_Future res || inspect_isgenerator res = true ->
     exists item w2,
       on_coroutine c op_next w1 = (inr (AObject item), w2) /\
       From (_DEBUG w) res = inr item /\
       untag item = res /\
       (forall v, (on_coroutine c (op_send v) w2).1 = inl (Return [v]) /\
                  exn_value (Return [v]) = Some v) /\
       forall resolve v fuel,
         resolve res = inr v ->
         (run_until_complete (S (S fuel)) resolve (coroutine func wd) args stack w).1
         = (Done v, [res])).
Proof.
  intros Hf Hb.
  destruct (call_coroutine_denotes func wd args stack w)
    as (c & w1 & Hcall & _ & Hden & Hgens & Hflag & _).
  assert (Hcode : code_of func = coro_code body) by (unfold code_of; rewrite Hf; reflexivity).
  rewrite Hcode in Hgens.
  set (r := length (generators w)) in *.
  assert (Hr : generators w1 !! r = Some (created_generator (coro_code body) args))
    by (rewrite Hgens; apply list_lookup_middle; reflexivity).
  exists c, w1. split; [exact Hcall|].
  unfold run_until_complete. rewrite Hcall.
  split.
  - intros Ha.
    assert (Hnext : (on_coroutine c op_next w1).1 = inl (Return [res])).
    { rewrite (on_coroutine_denotes c r w1 op_next Hden).
      simpl on_generator. unfold fmap_M, bind.
      rewrite (coro_first_next_plain r body args res w1 Hr Hb Ha). reflexivity. }
    split; [exact Hnext|]. split; [apply exn_value_Return|].
    intros resolve fuel. cbn [drive].
    destruct (on_coroutine c op_next w1) as [r0 w2]. simpl in Hnext. subst r0.
    rewrite exn_value_Return. reflexivity.
  - intros Ha.
    set (item := if _DEBUG w1 then VFromWrapper res else res).
    set (w2 := set_generators (<[r:=coro_suspended body]> (generators w1)) w1).
    assert (Hnext : on_coroutine c op_next w1 = (inr (AObject item), w2)).
    { rewrite (on_coroutine_denotes c r w1 op_next Hden).
      simpl on_generator. unfold fmap_M, bind.
      rewrite (coro_first_next_awaitable r body args res w1 Hr Hb Ha). reflexivity. }
    assert (Hu : untag item = res).
    { unfold item. destruct (_DEBUG w1); [reflexivity|].
      destruct res; try discriminate; reflexivity. }
    assert (Hden2 : denotes c r w2)
      by exact (denotes_only c r r w1 w2 Hden
                  (only_generator_store r (coro_suspended body) w1)).
    assert (Hr2 : generators w2 !! r = Some (coro_suspended body)).
    { unfold w2. simpl. apply list_lookup_insert_eq. eapply lookup_lt_Some. exact Hr. }
    assert (Hsend : forall v, (on_coroutine c (op_send v) w2).1 = inl (Return [v])).
    { intros v. rewrite (on_coroutine_denotes c r w2 (op_send v) Hden2).
      simpl on_generator. unfold fmap_M, bind.
      rewrite (coro_resumed r body (RSend v) w2 Hr2). reflexivity. }
    exists item, w2. split; [exact Hnext|]. split.
    { unfold item. rewrite Hflag. unfold From.
      destruct (_DEBUG w); simpl; [|reflexivity].
      destruct res; try discriminate; reflexivity. }
    split; [exact Hu|]. split.
    { intros v. split; [apply Hsend|apply exn_value_Return]. }
    intros resolve v fuel Hv. cbn [drive].
    rewrite Hnext, Hu, Hv.
    specialize (Hsend v).
    destruct (on_coroutine c (op_send v) w2) as [r0 w3]. simpl in Hsend. subst r0.
    rewrite exn_value_Return. reflexivity.
Qed.

(** *** The debug flag at call time *)

Lemma tag_added_untag v v' : tag_added v v' -> untag v' = untag v.
Proof.
  intros [->|[Hv ->]]; [reflexivity|].
  destruct v; try discriminate Hv; reflexivity.
Qed.

Lemma From_only_tagged c body :
  reads_flag_in_From_only c body ->
  forall l inp, tagged_outcome (co_resume c l false inp) (co_resume c l true inp).
Proof.
  intros Hb l inp. destruct (Hb l inp) as [Hr Hu]. rewrite !Hr.
  destruct (body l inp) as [item offset l'|obj offset l'|e]; simpl.
  - split; [left; reflexivity|auto].
  - unfold From, FromWrapper. simpl.
    destruct obj; try discriminate Hu; simpl; (split; [right; auto|auto]).
  - reflexivity.
Qed.

Lemma coro_code_From_only body :
  reads_flag_in_From_only (coro_code body) (coro_step body).
Proof.
  intros l inp. split.
  - intros d. destruct l as [args|]; simpl.
    + destruct (body args) as [e|res]; [reflexivity|].
      destruct (isinstance_Future res || inspect_isgenerator res); reflexivity.
    + destruct inp; reflexivity.
  - destruct l as [args|]; simpl.
    + destruct (body args) as [e|res]; [exact I|].
      destruct (isinstance_Future res || inspect_isgenerator res) eqn:Ha; [|exact I].
      destruct res; try discriminate Ha; reflexivity.
    + destruct inp; exact I.
Qed.

Lemma gen_send_ex_tagged r c inp w w' :
  (forall l i, tagged_outcome (co_resume c l false i) (co_resume c l true i)) ->
  runs_code r c w -> same_but_flag w w' -> _DEBUG w = false -> _DEBUG w' = true ->
  tagged_object_result (gen_send_ex r inp w).1 (gen_send_ex r inp w').1 /\
  same_but_flag (gen_send_ex r inp w).2 (gen_send_ex r inp w').2 /\
  runs_code r c (gen_send_ex r inp w).2.
Proof.
  intros Ht (g & Hg & Hc) (Eg & Ew & El) Hoff Hon.
  assert (Hr : (r < length (generators w))%nat) by (eapply lookup_lt_Some; eauto).
  assert (Hsame : same_but_flag w w') by (repeat split; assumption).
  assert (Hruns : runs_code r c w) by (exists g; auto).
  assert (Hstore : forall g' : generator,
             match gi_frame g' with None => True | Some f => f_code f = c end ->
             same_but_flag (set_generators (<[r:=g']> (generators w)) w)
                           (set_generators (<[r:=g']> (generators w')) w') /\
             runs_code r c (set_generators (<[r:=g']> (generators w)) w)).
  { intros g' Hg'. split.
    - repeat split; simpl; congruence.
    - exists g'. split; [simpl; apply list_lookup_insert_eq; exact Hr|exact Hg']. }
  unfold_M. rewrite Eg, Hg.
  destruct (gi_running g); [simpl; auto|].
  destruct (gi_frame g) as [f|] eqn:Hf.
  - destruct f as [c0 lasti l]. simpl in Hc. subst c0. simpl.
    pose proof (Ht l inp) as Hout. rewrite <- Hoff, <- Hon in Hout.
    destruct (Z.eqb lasti (-1)).
    + destruct inp as [v|e].
      * destruct (is_None v); [|simpl; auto].
        destruct (co_resume c l (_DEBUG w) (RSend v)) as [i1 o1 l1|e1],
                 (co_resume c l (_DEBUG w') (RSend v)) as [i2 o2 l2|e2];
          simpl in Hout; try contradiction.
        -- destruct Hout as (Hi & -> & ->). simpl.
           split; [exact Hi|]. apply Hstore. reflexivity.
        -- subst e2. simpl. split; [reflexivity|]. apply Hstore. exact I.
      * simpl. split; [reflexivity|]. apply Hstore. exact I.
    + destruct (co_resume c l (_DEBUG w) inp) as [i1 o1 l1|e1],
               (co_resume c l (_DEBUG w') inp) as [i2 o2 l2|e2];
        simpl in Hout; try contradiction.
      * destruct Hout as (Hi & -> & ->). simpl.
        split; [exact Hi|]. apply Hstore. reflexivity.
      * subst e2. simpl. split; [reflexivity|]. apply Hstore. exact I.
  - destruct inp; simpl; auto.
Qed.

Lemma on_generator_tagged r c op w w' :
  (forall l i, tagged_outcome (co_resume c l false i) (co_resume c l true i)) ->
  runs_code r c w -> same_but_flag w w' -> _DEBUG w = false -> _DEBUG w' = true ->
  tagged_when_set (on_generator (VGenerator r) op w).1 (on_generator (VGenerator r) op w').1 /\
  same_but_flag (on_generator (VGenerator r) op w).2 (on_generator (VGenerator r) op w').2 /\
  runs_code r c (on_generator (VGenerator r) op w).2.
Proof.
  intros Ht Hc Hs Hoff Hon.
  assert (Hsend : forall i,
             let m := fmap_M AObject (gen_send_ex r i) in
             tagged_when_set (m w).1 (m w').1 /\ same_but_flag (m w).2 (m w').2 /\
             runs_code r c (m w).2).
  { intros i. destruct (gen_send_ex_tagged r c i w w' Ht Hc Hs Hoff Hon) as (H1 & H2 & H3).
    unfold fmap_M, bind, ret.
    destruct (gen_send_ex r i w) as [[e1|v1] w1],
             (gen_send_ex r i w') as [[e2|v2] w2];
      simpl in *; try contradiction; auto. }
  destruct op; simpl.
  - apply Hsend.
  - apply Hsend.
  - apply Hsend.
  - destruct (gen_send_ex_tagged r c (RThrow GeneratorExit) w w' Ht Hc Hs Hoff Hon)
      as (H1 & H2 & H3).
    unfold fmap_M, bind, ret, gen_close.
    destruct (gen_send_ex r (RThrow GeneratorExit) w) as [[e1|v1] w1],
             (gen_send_ex r (RThrow GeneratorExit) w') as [[e2|v2] w2];
      simpl in *; try contradiction; auto.
    subst e2. destruct (isinstance_StopIteration e1 || is_GeneratorExit e1); simpl;
      [split; [left; reflexivity|auto]|auto].
  - destruct Hs as (Eg & Ew & El). destruct Hc as (g & Hg & Hc).
    unfold fmap_M, bind, lookup_generator, ret. rewrite Eg, Hg. simpl.
    repeat split; auto. exists g; auto.
  - destruct Hs as (Eg & Ew & El). destruct Hc as (g & Hg & Hc).
    unfold fmap_M, bind, lookup_generator, ret. rewrite Eg, Hg. simpl.
    repeat split; auto. exists g; auto.
  - destruct Hs as (Eg & Ew & El). destruct Hc as (g & Hg & Hc).
    unfold fmap_M, bind, lookup_generator, ret. rewrite Eg, Hg. simpl.
    repeat split; auto. exists g; auto.
Qed.

Lemma denotes_same_but_flag c r w w' :
  denotes c r w -> same_but_flag w w' -> denotes c r w'.
Proof.
  intros [->|(self & o & -> & Hw & Hg)] (_ & E & _); [left; reflexivity|].
  right. exists self, o. rewrite E. auto.
Qed.

Lemma session_tagged c r code ops : forall w w',
  (forall l i, tagged_outcome (co_resume code l false i) (co_resume code l true i)) ->
  runs_code r code w -> denotes c r w -> same_but_flag w w' ->
  _DEBUG w = false -> _DEBUG w' = true ->
  Forall2 tagged_when_set (session (on_coroutine c) ops w).1
                          (session (on_coroutine c) ops w').1 /\
  same_but_flag (session (on_coroutine c) ops w).2 (session (on_coroutine c) ops w').2.
Proof.
  induction ops as [|op ops IH]; intros w w' Ht Hc Hd Hs Hoff Hon; simpl.
  - split; [constructor|exact Hs].
  - pose proof (denotes_same_but_flag c r w w' Hd Hs) as Hd'.
    rewrite (on_coroutine_denotes c r w op Hd).
    rewrite (on_coroutine_denotes c r w' op Hd').
    destruct (on_generator_tagged r code op w w' Ht Hc Hs Hoff Hon) as (H1 & H2 & H3).
    destruct (on_generator (VGenerator r) op w) as [res w1] eqn:E1.
    destruct (on_generator (VGenerator r) op w') as [res' w1'] eqn:E1'.
    simpl in H1, H2, H3.
    pose proof (on_generator_only _ _ _ _ _ E1) as Ho.
    pose proof (on_generator_only _ _ _ _ _ E1') as Ho'.
    assert (Hd1 : denotes c r w1) by (eapply denotes_only; [exact Hd|exact Ho]).
    assert (Hoff1 : _DEBUG w1 = false) by (destruct Ho as (-> & _); exact Hoff).
    assert (Hon1 : _DEBUG w1' = true) by (destruct Ho' as (-> & _); exact Hon).
    destruct (IH w1 w1' Ht H3 Hd1 H2 Hoff1 Hon1) as [IH1 IH2].
    destruct (session (on_coroutine c) ops w1) as [rs w2].
    destruct (session (on_coroutine c) ops w1') as [rs' w2'].
    simpl in *. split; [constructor; assumption|assumption].
Qed.

Lemma drive_tagged resolve c r code fuel : forall op w w',
  (forall l i, tagged_outcome (co_resume code l false i) (co_resume code l true i)) ->
  runs_code r code w -> denotes c r w -> same_but_flag w w' ->
  _DEBUG w = false -> _DEBUG w' = true ->
  (drive fuel resolve c op w).1 = (drive fuel resolve c op w').1 /\
  same_but_flag (drive fuel resolve c op w).2 (drive fuel resolve c op w').2.
Proof.
  induction fuel as [|fuel IH]; intros op w w' Ht Hc Hd Hs Hoff Hon; simpl.
  - split; [reflexivity|exact Hs].
  - pose proof (denotes_same_but_flag c r w w' Hd Hs) as Hd'.
    rewrite (on_coroutine_denotes c r w op Hd).
    rewrite (on_coroutine_denotes c r w' op Hd').
    destruct (on_generator_tagged r code op w w' Ht Hc Hs Hoff Hon) as (H1 & H2 & H3).
    destruct (on_generator (VGenerator r) op w) as [res w1] eqn:E1.
    destruct (on_generator (VGenerator r) op w') as [res' w1'] eqn:E1'.
    simpl in H1, H2, H3.
    pose proof (on_generator_only _ _ _ _ _ E1) as Ho.
    pose proof (on_generator_only _ _ _ _ _ E1') as Ho'.
    assert (Hd1 : denotes c r w1) by (eapply denotes_only; [exact Hd|exact Ho]).
    assert (Hoff1 : _DEBUG w1 = false) by (destruct Ho as (-> & _); exact Hoff).
    assert (Hon1 : _DEBUG w1' = true) by (destruct Ho' as (-> & _); exact Hon).
    destruct res as [e|[v|f|b|k]], res' as [e'|[v'|f'|b'|k']]; simpl in H1;
      try contradiction; try discriminate H1; try (simpl; auto; fail).
    + subst e'. destruct (exn_value e); simpl; auto.
    + rewrite (tag_added_untag v v' H1).
      destruct (IH match resolve (untag v) with
                   | inl e => op_throw e
                   | inr v0 => op_send v0
                   end w1 w1' Ht H3 Hd1 H2 Hoff1 Hon1) as [IH1 IH2].
      destruct (drive fuel resolve c _ w1) as [[r0 aw] w2].
      destruct (drive fuel resolve c _ w1') as [[r0' aw'] w2'].
      simpl in *. split; [|exact IH2].
      injection IH1 as -> ->. reflexivity.
Qed.

Lemma From_at_resume c body r g lasti l inp w :
  reads_flag_in_From_only c body ->
  generators w !! r = Some g ->
  gi_running g = false ->
  gi_frame g = Some {| f_code := c; f_lasti := lasti; f_locals := l |} ->
  (lasti = -1 -> inp = RSend VNone) ->
  (gen_send_ex r inp w).1
  = match body l inp with
    | StepYield item _ _ => inr item
    | StepYieldFrom obj _ _ => inr (if _DEBUG w then VFromWrapper obj else obj)
    | StepRaise e => inl e
    end.
Proof.
  intros Hb Hr Hrun Hf Hinp.
  erewrite gen_send_ex_runs; [|exact Hr|exact Hrun|exact Hf|exact Hinp].
  unfold run_frame, bind, read__DEBUG. cbn [f_code f_locals].
  destruct (Hb l inp) as [Hres Hu]. rewrite Hres.
  destruct (body l inp) as [item offset l'|obj offset l'|e]; simpl; [reflexivity| |reflexivity].
  unfold From, FromWrapper.
  destruct (_DEBUG w); simpl; [|reflexivity].
  destruct obj; try discriminate Hu; reflexivity.
Qed.

Lemma code_of_tagged func :
  match func_code func with
  | GeneratorCode c => exists body, reads_flag_in_From_only c body
  | PlainCode _ => True
  end ->
  forall l i, tagged_outcome (co_resume (code_of func) l false i)
                             (co_resume (code_of func) l true i).
Proof.
  unfold code_of. destruct (func_code func) as [body|c].
  - intros _. exact (From_only_tagged _ _ (coro_code_From_only body)).
  - intros [body Hb]. exact (From_only_tagged _ _ Hb).
Qed.

(** C2, as amended: whether a call of the marked function returns a
    [CoroWrapper] is decided by the flag at decoration time alone; the
    flag at call time is read by [From], when [From] runs.  The statement
    is for a marked plain function (a function of its arguments: it does
    not read the flag itself) and for a marked generator function whose
    body reads the flag in calls of [From] only.  Two runs, one with the
    flag off and one with the flag on at call time, create the same
    objects, and in any driver session every result is the same in both,
    raised exceptions and final values included, except that a yielded
    item is inside a [FromWrapper] in the run with the flag on where it is
    bare in the run with the flag off; the worlds still differ only in the
    flag afterwards.  A scheduler that takes the object out of the tag
    completes both runs alike.  The items that differ are those yielded
    through [From]: the awaitable the trampoline of a plain function
    delegates to, and what the body of a generator function hands to
    [From]. *)
Theorem flag_at_call_time_only_tags func wd args stack w :
  match func_code func with
  | GeneratorCode c => exists body, reads_flag_in_From_only c body
  | PlainCode _ => True
  end ->
  exists c w_off w_on,
    call (coroutine func wd) args stack (set__DEBUG false w) = (inr c, w_off) /\
    call (coroutine func wd) args stack (set__DEBUG true w) = (inr c, w_on) /\
    isinstance_CoroWrapper c = _DEBUG wd /\
    same_but_flag w_off w_on /\
    (forall ops,
        Forall2 tagged_when_set (session (on_coroutine c) ops w_off).1
                                (session (on_coroutine c) ops w_on).1 /\
        same_but_flag (session (on_coroutine c) ops w_off).2
                      (session (on_coroutine c) ops w_on).2) /\
    (forall fuel resolve op,
        (drive fuel resolve c op w_off).1 = (drive fuel resolve c op w_on).1) /\
    (forall body res,
        func_code func = PlainCode body ->
        body args = inr res ->
        isinstance_Future res || inspect_isgenerator res = true ->
        (on_coroutine c op_next w_off).1 = inr (AObject res) /\
        (on_coroutine c op_next w_on).1 = inr (AObject (VFromWrapper res))) /\
    (forall code body r g lasti l inp w0,
        func_code func = GeneratorCode code ->
        reads_flag_in_From_only code body ->
        generators w0 !! r = Some g ->
        gi_running g = false ->
        gi_frame g = Some {| f_code := code; f_lasti := lasti; f_locals := l |} ->
        (lasti = -1 -> inp = RSend VNone) ->
        (gen_send_ex r inp w0).1
        = match body l inp with
          | StepYield item _ _ => inr item
          | StepYieldFrom obj _ _ => inr (if _DEBUG w0 then VFromWrapper obj else obj)
          | StepRaise e => inl e
          end).
Proof.
  intros Hfunc0. pose proof (code_of_tagged func Hfunc0) as Hfunc.
  set (r := length (generators w)).
  destruct (call_coroutine_denotes func wd args stack (set__DEBUG false w))
    as (c & w_off & Hcall & Hinst & Hden & Hgens & Hflag & Hlog).
  assert (Hon : exists w_on,
             call (coroutine func wd) args stack (set__DEBUG true w) = (inr c, w_on) /\
             same_but_flag w_off w_on /\ _DEBUG w_on = true).
  { destruct (_DEBUG wd) eqn:Hd.
    - rewrite (call_coroutine_debug func wd args stack _ Hd) in Hcall.
      injection Hcall as <- <-.
      eexists. split;
        [rewrite (call_coroutine_debug func wd args stack (set__DEBUG true w) Hd); reflexivity|].
      repeat split.
    - rewrite (call_coroutine_plain func wd args stack _ Hd) in Hcall.
      injection Hcall as <- <-.
      eexists. split;
        [rewrite (call_coroutine_plain func wd args stack (set__DEBUG true w) Hd); reflexivity|].
      repeat split. }
  destruct Hon as (w_on & Hcall' & Hsame & Hflag').
  simpl in Hflag, Hgens.
  assert (Hruns : runs_code r (code_of func) w_off).
  { eexists. rewrite Hgens. split; [apply list_lookup_middle; reflexivity|reflexivity]. }
  exists c, w_off, w_on.
  split; [exact Hcall|]. split; [exact Hcall'|]. split; [exact Hinst|].
  split; [exact Hsame|].
  split; [|split; [|split]].
  - intros ops.
    exact (session_tagged c r (code_of func) ops w_off w_on Hfunc Hruns Hden Hsame
             Hflag Hflag').
  - intros fuel resolve op.
    exact (proj1 (drive_tagged resolve c r (code_of func) fuel op w_off w_on Hfunc Hruns
                    Hden Hsame Hflag Hflag')).
  - intros body res Hf Hb Ha.
    assert (Hcode : code_of func = coro_code body)
      by (unfold code_of; rewrite Hf; reflexivity).
    assert (Hr : generators w_off !! r = Some (created_generator (coro_code body) args))
      by (rewrite Hgens, Hcode; apply list_lookup_middle; reflexivity).
    assert (Hr' : generators w_on !! r = Some (created_generator (coro_code body) args))
      by (destruct Hsame as (-> & _); exact Hr).
    split.
    + rewrite (on_coroutine_denotes c r w_off op_next Hden).
      simpl on_generator. unfold fmap_M, bind.
      rewrite (coro_first_next_awaitable r body args res w_off Hr Hb Ha), Hflag.
      reflexivity.
    + rewrite (on_coroutine_denotes c r w_on op_next
                 (denotes_same_but_flag c r w_off w_on Hden Hsame)).
      simpl on_generator. unfold fmap_M, bind.
      rewrite (coro_first_next_awaitable r body args res w_on Hr' Hb Ha), Hflag'.
      reflexivity.
  - intros code body r0 g lasti l inp w0 _ Hb Hr Hrun Hf Hinp.
    exact (From_at_resume code body r0 g lasti l inp w0 Hb Hr Hrun Hf Hinp).
Qed.

(** *** Failures and suspensions of the trampoline *)

Lemma coro_first_next_raises r body args e w :
  generators w !! r = Some (created_generator (coro_code body) args) ->
  body args = inl e ->
  gen_send_ex r (RSend VNone) w
  = (inl e, set_generators (<[r:=coro_finished body]> (generators w)) w).
Proof.
  intros Hr Hb.
  erewrite gen_send_ex_runs; [|exact Hr|reflexivity|reflexivity|reflexivity].
  unfold run_frame, bind, read__DEBUG. simpl.
  rewrite Hb. reflexivity.
Qed.

(** X1: a marked plain function is not run by the call: the call returns a
    computation and logs nothing even where the function would raise.  The
    function runs at the first [next], and an exception it raises comes out
    of that [next] as it is.  An exception thrown into the computation,
    before its first resume or while it waits at its [yield], comes out as
    it is too. *)
Theorem trampoline_propagates_failures func body wd args stack w :
  func_code func = PlainCode body ->
  exists c w1,
    call (coroutine func wd) args stack w = (inr c, w1) /\
    log w1 = log w /\
    (forall e, body args = inl e -> (on_coroutine c op_next w1).1 = inl e) /\
    (forall e, (on_coroutine c (op_throw e) w1).1 = inl e) /\
    (forall res,
        body args = inr res ->
        isinstance_Future res || inspect_isgenerator res = true ->
        exists item w2,
          on_coroutine c op_next w1 = (inr (AObject item), w2) /\
          forall e, (on_coroutine c (op_throw e) w2).1 = inl e).
Proof.
  intros Hf.
  destruct (call_coroutine_denotes func wd args stack w)
    as (c & w1 & Hcall & _ & Hden & Hgens & _ & Hlog).
  assert (Hcode : code_of func = coro_code body) by (unfold code_of; rewrite Hf; reflexivity).
  rewrite Hcode in Hgens.
  set (r := length (generators w)) in *.
  assert (Hr : generators w1 !! r = Some (created_generator (coro_code body) args))
    by (rewrite Hgens; apply list_lookup_middle; reflexivity).
  exists c, w1. split; [exact Hcall|]. split; [exact Hlog|].
  split; [|split].
  - intros e Hb.
    rewrite (on_coroutine_denotes c r w1 op_next Hden).
    simpl on_generator. unfold fmap_M, bind.
    rewrite (coro_first_next_raises r body args e w1 Hr Hb). reflexivity.
  - intros e.
    rewrite (on_coroutine_denotes c r w1 (op_throw e) Hden).
    simpl on_generator. unfold fmap_M, bind.
    destruct (gen_send_ex_throw_unstarted r w1 e) as (g & _ & ->); [|reflexivity].
    eapply created_never_started; [reflexivity|exact Hgens].
  - intros res Hb Ha.
    set (item := if _DEBUG w1 then VFromWrapper res else res).
    set (w2 := set_generators (<[r:=coro_suspended body]> (generators w1)) w1).
    exists item, w2. split.
    + rewrite (on_coroutine_denotes c r w1 op_next Hden).
      simpl on_generator. unfold fmap_M, bind.
      rewrite (coro_first_next_awaitable r body args res w1 Hr Hb Ha). reflexivity.
    + intros e.
      assert (Hden2 : denotes c r w2)
        by exact (denotes_only c r r w1 w2 Hden
                    (only_generator_store r (coro_suspended body) w1)).
      rewrite (on_coroutine_denotes c r w2 (op_throw e) Hden2).
      simpl on_generator. unfold fmap_M, bind.
      rewrite (coro_resumed r body (RThrow e) w2); [reflexivity|].
      unfold w2. simpl. apply list_lookup_insert_eq. eapply lookup_lt_Some. exact Hr.
Qed.

Lemma trampoline_budget_finished body g k :
  trampoline_budget body (finished g) k.
Proof. split; [reflexivity|exact I]. Qed.

Lemma gen_send_ex_budget body r inp w g k :
  generators w !! r = Some g ->
  trampoline_budget body g k ->
  exists g',
    generators (gen_send_ex r inp w).2 !! r = Some g' /\
    if returned (gen_send_ex r inp w).1
    then (1 <= k)%nat /\ trampoline_budget body g' (k - 1)
    else trampoline_budget body g' k.
Proof.
  intros Hg Hb.
  assert (Hr : (r < length (generators w))%nat) by (eapply lookup_lt_Some; eauto).
  assert (Hfin : forall e : exn,
             let out := (inl e : result object,
                         set_generators (<[r:=finished g]> (generators w)) w) in
             exists g',
               generators out.2 !! r = Some g' /\
               if returned out.1
               then (1 <= k)%nat /\ trampoline_budget body g' (k - 1)
               else trampoline_budget body g' k).
  { intros e. exists (finished g). split; [|apply trampoline_budget_finished].
    simpl. apply list_lookup_insert_eq. exact Hr. }
  pose proof Hb as (Hrun & Hf).
  unfold gen_send_ex.
  erewrite bind_inr; [|unfold lookup_generator; rewrite Hg; reflexivity].
  rewrite Hrun.
  destruct (gi_frame g) as [f|] eqn:Ef.
  - destruct Hf as (lasti & l & -> & Hl). simpl.
    destruct l as [args|].
    + destruct Hl as (-> & Hk). simpl.
      destruct inp as [v|e]; [|apply (Hfin e)].
      destruct (is_None v); [|exists g; simpl; auto].
      unfold run_frame, bind, read__DEBUG. simpl.
      destruct (body args) as [e|res]; [apply (Hfin e)|].
      destruct (isinstance_Future res || inspect_isgenerator res);
        [|apply (Hfin (Return [res]))].
      destruct (From (_DEBUG w) res) as [e|item]; [apply (Hfin e)|].
      simpl. eexists. split; [apply list_lookup_insert_eq; exact Hr|].
      split; [exact Hk|]. split; [reflexivity|].
      simpl. exists (Z.of_nat coro_yield_offset), coro_yielded.
      split; [reflexivity|lia].
    + destruct (Z.eqb_spec lasti (-1)) as [E|E]; [lia|].
      unfold run_frame, bind, read__DEBUG. simpl.
      destruct inp as [v|e]; [apply (Hfin (Return [v]))|apply (Hfin e)].
  - destruct inp; exists g; simpl; auto.
Qed.

Lemma trampoline_budget_le body g k k' :
  (k <= k')%nat -> trampoline_budget body g k -> trampoline_budget body g k'.
Proof.
  intros Hk (Hrun & Hf). split; [exact Hrun|].
  destruct (gi_frame g); [|exact I].
  destruct Hf as (lasti & l & Hf & Hl). exists lasti, l. split; [exact Hf|].
  destruct l; [destruct Hl; split; [assumption|lia]|assumption].
Qed.

Lemma on_generator_budget body r op w g k :
  generators w !! r = Some g ->
  trampoline_budget body g k ->
  exists g' n,
    generators (on_generator (VGenerator r) op w).2 !! r = Some g' /\
    n = (if is_resume op && returned (on_generator (VGenerator r) op w).1
         then 1 else 0)%nat /\
    (n <= k)%nat /\ trampoline_budget body g' (k - n).
Proof.
  intros Hg Hb.
  assert (Hsend : forall inp,
             exists g' n,
               generators (fmap_M AObject (gen_send_ex r inp) w).2 !! r = Some g' /\
               n = (if returned (fmap_M AObject (gen_send_ex r inp) w).1
                    then 1 else 0)%nat /\
               (n <= k)%nat /\ trampoline_budget body g' (k - n)).
  { intros inp. destruct (gen_send_ex_budget body r inp w g k Hg Hb) as (g' & Hg' & H).
    unfold fmap_M, bind, ret.
    destruct (gen_send_ex r inp w) as [[e|v] w1]; simpl in *.
    - exists g', 0%nat. replace (k - 0)%nat with k by lia.
      split; [exact Hg'|]. split; [reflexivity|]. split; [lia|exact H].
    - exists g', 1%nat. destruct H as [Hk H].
      split; [exact Hg'|]. split; [reflexivity|]. split; [exact Hk|exact H]. }
  assert (Hread : forall A (m : generator -> A) (f : A -> answer),
             exists g' n,
               generators (fmap_M f (x <- lookup_generator r ;; ret (m x)) w).2 !! r
               = Some g' /\
               n = 0%nat /\ (n <= k)%nat /\ trampoline_budget body g' (k - n)).
  { intros A m f. unfold fmap_M, bind, lookup_generator, ret. rewrite Hg. simpl.
    exists g, 0%nat. replace (k - 0)%nat with k by lia.
    split; [exact Hg|]. split; [reflexivity|]. split; [lia|exact Hb]. }
  destruct op; simpl.
  - apply Hsend.
  - apply Hsend.
  - apply Hsend.
  - destruct (gen_send_ex_budget body r (RThrow GeneratorExit) w g k Hg Hb)
      as (g' & Hg' & H).
    unfold fmap_M, bind, ret, gen_close.
    destruct (gen_send_ex r (RThrow GeneratorExit) w) as [[e|v] w1]; simpl in *.
    + exists g', 0%nat.
      replace (k - 0)%nat with k by lia.
      destruct (isinstance_StopIteration e || is_GeneratorExit e); simpl;
        (split; [exact Hg'|]; split; [reflexivity|]; split; [lia|exact H]).
    + exists g', 0%nat. destruct H as [Hk H].
      replace (k - 0)%nat with k by lia.
      split; [exact Hg'|]. split; [reflexivity|]. split; [lia|].
      eapply trampoline_budget_le; [|exact H]. lia.
  - apply Hread.
  - apply Hread.
  - apply Hread.
Qed.

Lemma session_budget body c r ops : forall w g k,
  denotes c r w ->
  generators w !! r = Some g ->
  trampoline_budget body g k ->
  (suspensions ops (session (on_coroutine c) ops w).1 <= k)%nat.
Proof.
  induction ops as [|op ops IH]; intros w g k Hd Hg Hb; simpl; [lia|].
  rewrite (on_coroutine_denotes c r w op Hd).
  destruct (on_generator_budget body r op w g k Hg Hb) as (g' & n & Hg' & Hn & Hle & Hb').
  destruct (on_generator (VGenerator r) op w) as [res w1] eqn:E1.
  simpl in Hg', Hn.
  assert (Hd1 : denotes c r w1)
    by (eapply denotes_only; [exact Hd|eapply on_generator_only; exact E1]).
  specialize (IH w1 g' (k - n)%nat Hd1 Hg' Hb').
  destruct (session (on_coroutine c) ops w1) as [rs w2]. simpl in *.
  rewrite <- Hn. lia.
Qed.

(** X2: the computation of a marked plain function suspends at most once.
    In any session of driver operations on it, whatever is sent or thrown
    in and in whatever order, at most one [next], [send] or [throw] comes
    back with a yielded item; every other one raises. *)
Theorem trampoline_suspends_at_most_once func body wd args stack w ops :
  func_code func = PlainCode body ->
  exists c w1,
    call (coroutine func wd) args stack w = (inr c, w1) /\
    (suspensions ops (session (on_coroutine c) ops w1).1 <= 1)%nat.
Proof.
  intros Hf.
  destruct (call_coroutine_denotes func wd args stack w)
    as (c & w1 & Hcall & _ & Hden & Hgens & _ & _).
  assert (Hcode : code_of func = coro_code body) by (unfold code_of; rewrite Hf; reflexivity).
  rewrite Hcode in Hgens.
  exists c, w1. split; [exact Hcall|].
  apply (session_budget body c (length (generators w)) ops w1
           (created_generator (coro_code body) args)).
  - exact Hden.
  - rewrite Hgens. apply list_lookup_middle. reflexivity.
  - split; [reflexivity|]. simpl. exists (-1), (coro_entry args).
    split; [reflexivity|]. split; [reflexivity|lia].
Qed.

(** *** Destruction of a wrapper *)

(** X3: what counts as never started when a wrapper is destroyed.  For a
    wrapper around a generator whose body has not run: a [send] of a value
    other than [None] is refused with [TypeError] and changes nothing, and
    reading [gi_frame], [gi_running] or [gi_code] changes nothing, so the
    wrapper still logs its record when destroyed; but after [throw] (which
    raises the exception thrown) or [close] (which returns [None]) the
    generator has finished, and the wrapper is destroyed without a record
    although its body never ran. *)
Theorem destruction_before_first_resume self o r w :
  wrappers w !! self = Some o ->
  CoroWrapper.gen o = Some (VGenerator r) ->
  never_started r w ->
  CoroWrapper___del__ self w
  = (inr tt,
     set_log (log w ++ [never_yielded_diagnostic (CoroWrapper.func o)
                          (CoroWrapper._source_traceback o)]) w) /\
  (forall v, is_None v = false ->
     on_CoroWrapper self (op_send v) w
     = (inl (TypeError "can't send non-None value to a just-started generator"), w)) /\
  (forall op, op = op_gi_frame \/ op = op_gi_running \/ op = op_gi_code ->
     (on_CoroWrapper self op w).2 = w) /\
  (forall e,
     (on_CoroWrapper self (op_throw e) w).1 = inl e /\
     CoroWrapper___del__ self (on_CoroWrapper self (op_throw e) w).2
     = (inr tt, (on_CoroWrapper self (op_throw e) w).2)) /\
  ((on_CoroWrapper self op_close w).1 = inr (AObject VNone) /\
   CoroWrapper___del__ self (on_CoroWrapper self op_close w).2
   = (inr tt, (on_CoroWrapper self op_close w).2)).
Proof.
  intros Hw Hg Hn.
  assert (Hfw : forall op, on_CoroWrapper self op w = on_generator (VGenerator r) op w)
    by (intros op; eapply on_CoroWrapper_forwards; eauto).
  pose proof Hn as (g & f & Hgr & _).
  assert (Hr : (r < length (generators w))%nat) by (eapply lookup_lt_Some; eauto).
  split; [apply (del_when_never_started self o r); assumption|].
  split; [|split; [|split]].
  - intros v Hv. rewrite Hfw. simpl. unfold fmap_M, bind.
    rewrite (gen_send_ex_refused r v w Hn Hv). reflexivity.
  - intros op Hop. rewrite Hfw.
    destruct Hop as [->|[->| ->]]; simpl;
      unfold fmap_M, bind, lookup_generator, ret; rewrite Hgr; reflexivity.
  - intros e. rewrite Hfw. simpl. unfold fmap_M, bind.
    destruct (gen_send_ex_throw_unstarted r w e Hn) as (g0 & _ & ->). simpl.
    split; [reflexivity|].
    apply (del_when_started self o r); [exact Hw|exact Hg|].
    apply was_started_finished. exact Hr.
  - rewrite Hfw. simpl. unfold fmap_M, bind, gen_close.
    destruct (gen_send_ex_throw_unstarted r w GeneratorExit Hn) as (g0 & _ & ->). simpl.
    split; [reflexivity|].
    apply (del_when_started self o r); [exact Hw|exact Hg|].
    apply was_started_finished. exact Hr.
Qed.

Lemma del_world self w :
  exists l, (CoroWrapper___del__ self w).2 = set_log l w /\
            (l = log w \/ exists d, l = log w ++ [d] /\ levelname d = "ERROR").
Proof.
  assert (Hsame : w = set_log (log w) w) by (destruct w; reflexivity).
  assert (Hnone : exists l, w = set_log l w /\
             (l = log w \/ exists d, l = log w ++ [d] /\ levelname d = "ERROR"))
    by (exists (log w); split; [exact Hsame|left; reflexivity]).
  unfold CoroWrapper___del__, bind, lookup_wrapper.
  destruct (wrappers w !! self) as [o|]; [|exact Hnone].
  unfold getattr_gi_frame.
  destruct (object_gi_frame _ w) as [e|[f|]]; [destruct e; exact Hnone| |exact Hnone].
  destruct (Z.eqb (f_lasti f) (-1)); [|exact Hnone].
  eexists. split; [reflexivity|]. right. eexists. split; reflexivity.
Qed.

Lemma wrapper_gi_frame_cycle n self o w :
  wrappers w !! self = Some o ->
  CoroWrapper.gen o = Some (VCoroWrapper self) ->
  wrapper_gi_frame n self w = inl (RuntimeError "maximum recursion depth exceeded").
Proof.
  intros Hw Hg. induction n as [|n IH]; simpl; [reflexivity|].
  rewrite Hw, Hg. exact IH.
Qed.

(** X4: destroying a wrapper only ever writes to the log.  [__del__]
    leaves the generators, the wrappers and the debug flag as they are and
    appends at most one record, at error level.  Where every wrapper wraps
    a generator, as the constructor sees to, it returns normally.  It
    returns normally and appends nothing for an instance whose [gen]
    attribute was never assigned.  Where [gen] holds a [CoroWrapper] around
    a generator that has not started, it reads the frame through the
    property of that wrapper and appends its record; and where an instance
    was made its own [gen], reading the property does not end and the
    error leaves [__del__], nothing having been logged. *)
Theorem del_only_logs self w :
  (exists l,
      (CoroWrapper___del__ self w).2 = set_log l w /\
      (l = log w \/ exists d, l = log w ++ [d] /\ levelname d = "ERROR")) /\
  (wrappers_ok w ->
   forall o, wrappers w !! self = Some o -> (CoroWrapper___del__ self w).1 = inr tt) /\
  (forall o,
      wrappers w !! self = Some o ->
      CoroWrapper.gen o = None ->
      CoroWrapper___del__ self w = (inr tt, w)) /\
  (forall o inner o' r,
      wrappers w !! self = Some o ->
      CoroWrapper.gen o = Some (VCoroWrapper inner) ->
      wrappers w !! inner = Some o' ->
      CoroWrapper.gen o' = Some (VGenerator r) ->
      never_started r w ->
      CoroWrapper___del__ self w
      = (inr tt,
         set_log (log w ++ [never_yielded_diagnostic (CoroWrapper.func o)
                              (CoroWrapper._source_traceback o)]) w)) /\
  (forall o,
      wrappers w !! self = Some o ->
      CoroWrapper.gen o = Some (VCoroWrapper self) ->
      CoroWrapper___del__ self w
      = (inl (RuntimeError "maximum recursion depth exceeded"), w)).
Proof.
  split; [apply del_world|]. split; [|split; [|split]].
  - intros Hok o Hw. destruct (Hok self o Hw) as (r & Hg & Hr).
    destruct (lookup_lt_is_Some_2 _ _ Hr) as [g Hr0].
    assert (Hr' : @lookup ref generator (list generator) _ r (generators w) = Some g)
      by exact Hr0.
    unfold CoroWrapper___del__, bind, lookup_wrapper. rewrite Hw, Hg.
    unfold getattr_gi_frame, object_gi_frame. rewrite Hr'.
    destruct (gi_frame g) as [f|]; [|reflexivity].
    destruct (Z.eqb (f_lasti f) (-1)); reflexivity.
  - intros o Hw Hg. unfold CoroWrapper___del__, bind, lookup_wrapper. rewrite Hw, Hg.
    reflexivity.
  - intros o inner o' r Hw Hg Hw' Hg' (g & f & Hr & _ & Hf & Hl).
    unfold CoroWrapper___del__, bind, lookup_wrapper. rewrite Hw, Hg.
    unfold getattr_gi_frame, object_gi_frame.
    destruct (length (wrappers w)) as [|n] eqn:En.
    + apply lookup_lt_Some in Hw. lia.
    + simpl. rewrite Hw', Hg', Hr, Hf, Hl. reflexivity.
  - intros o Hw Hg. unfold CoroWrapper___del__, bind, lookup_wrapper. rewrite Hw, Hg.
    unfold getattr_gi_frame, object_gi_frame.
    rewrite (wrapper_gi_frame_cycle _ self o w Hw Hg). reflexivity.
Qed.

(** *** Wrappers and the generators they wrap *)

Lemma on_generator_other c op w :
  inspect_isgenerator c = false -> (on_generator c op w).2 = w.
Proof. intros Hc. destruct c; try discriminate; destruct op; reflexivity. Qed.

Lemma wrappers_ok_only r w w' :
  only_generator r w w' -> wrappers_ok w -> wrappers_ok w'.
Proof.
  intros (_ & Ew & _ & El & _) Hok self o Ho.
  rewrite Ew in Ho. rewrite El. exact (Hok self o Ho).
Qed.

Lemma wrappers_ok_forwards self o w :
  wrappers_ok w -> wrappers w !! self = Some o ->
  exists r g, generators w !! r = Some g /\
              forall op, on_CoroWrapper self op w = on_generator (VGenerator r) op w.
Proof.
  intros Hok Ho. destruct (Hok self o Ho) as (r & Hg & Hr).
  destruct (lookup_lt_is_Some_2 (generators w) r Hr) as [g Hgr].
  exists r, g. split; [exact Hgr|].
  intros op. eapply on_CoroWrapper_forwards; eauto.
Qed.

Lemma on_CoroWrapper_missing self op w :
  wrappers w !! self = None -> (on_CoroWrapper self op w).2 = w.
Proof.
  intros Hn.
  destruct op; simpl;
    unfold fmap_M, CoroWrapper___next__, CoroWrapper_send, CoroWrapper_throw,
      CoroWrapper_close, CoroWrapper_gi_frame, CoroWrapper_gi_running,
      CoroWrapper_gi_code, self_gen, bind, lookup_wrapper;
    rewrite Hn; reflexivity.
Qed.

Lemma on_coroutine_wrappers_ok c op w :
  wrappers_ok w -> wrappers_ok (on_coroutine c op w).2.
Proof.
  intros Hok.
  assert (Hgen : forall r, wrappers_ok (on_generator (VGenerator r) op w).2).
  { intros r. destruct (on_generator (VGenerator r) op w) as [res w'] eqn:E.
    eapply wrappers_ok_only; [eapply on_generator_only; exact E|exact Hok]. }
  destruct c; try (simpl; rewrite on_generator_other; [exact Hok|reflexivity]).
  - apply Hgen.
  - simpl. destruct (wrappers w !! r) as [o|] eqn:Ho.
    + destruct (wrappers_ok_forwards r o w Hok Ho) as (r0 & g & _ & ->). apply Hgen.
    + rewrite on_CoroWrapper_missing; [exact Hok|exact Ho].
Qed.

Lemma call_coroutine_wrappers_ok func wd args stack w :
  wrappers_ok w -> wrappers_ok (call (coroutine func wd) args stack w).2.
Proof.
  intros Hok. destruct (_DEBUG wd) eqn:Hd.
  - rewrite (call_coroutine_debug func wd args stack w Hd). simpl.
    intros self o Ho. simpl in Ho |- *. rewrite length_app. simpl.
    apply lookup_app_Some in Ho. destruct Ho as [Ho|[_ Ho]].
    + destruct (Hok self o Ho) as (r & Hg & Hr). exists r. split; [exact Hg|lia].
    + apply list_lookup_singleton_Some in Ho. destruct Ho as [_ <-].
      eexists. split; [reflexivity|lia].
  - rewrite (call_coroutine_plain func wd args stack w Hd). simpl.
    intros self o Ho. simpl in Ho |- *. rewrite length_app. simpl.
    destruct (Hok self o Ho) as (r & Hg & Hr). exists r. split; [exact Hg|lia].
Qed.

(** X5: every [CoroWrapper] wraps a generator, always.  The constructor
    refuses anything that is not a generator object, raising
    [AssertionError] with the object and creating nothing.  A world without
    objects satisfies the invariant, and every call of a marked function,
    every driver operation on any object and every destruction of a wrapper
    keeps it.  Under it, each operation on a wrapper is the same operation
    on an existing generator: the wrapper adds no failure of its own. *)
Theorem wrappers_always_wrap_generators :
  (forall DEBUG, wrappers_ok (empty_world DEBUG)) /\
  (forall gen func stack w,
      inspect_isgenerator gen = false ->
      CoroWrapper___init__ gen func stack w = (inl (AssertionError gen), w)) /\
  (forall func wd args stack w,
      wrappers_ok w -> wrappers_ok (call (coroutine func wd) args stack w).2) /\
  (forall c op w, wrappers_ok w -> wrappers_ok (on_coroutine c op w).2) /\
  (forall self w, wrappers_ok w -> wrappers_ok (CoroWrapper___del__ self w).2) /\
  (forall self o w,
      wrappers_ok w -> wrappers w !! self = Some o ->
      exists r g, generators w !! r = Some g /\
                  forall op, on_CoroWrapper self op w = on_generator (VGenerator r) op w).
Proof.
  split; [|split; [|split; [|split; [|split]]]].
  - intros DEBUG self o Ho. destruct self; discriminate Ho.
  - intros gen func stack w Hg. unfold CoroWrapper___init__. rewrite Hg. reflexivity.
  - apply call_coroutine_wrappers_ok.
  - apply on_coroutine_wrappers_ok.
  - intros self w Hok. destruct (del_world self w) as (l & -> & _).
    intros s o Ho. exact (Hok s o Ho).
  - intros self o w. apply wrappers_ok_forwards.
Qed.

(** *** Independence of computations *)

Lemma agree_on_store r g w w' :
  agree_on r w w' ->
  is_Some (generators w !! r) ->
  agree_on r (set_generators (<[r:=g]> (generators w)) w)
             (set_generators (<[r:=g]> (generators w')) w').
Proof.
  intros (Ef & Eg) Hs. split; [exact Ef|]. simpl.
  destruct Hs as [x Hx].
  rewrite !list_lookup_insert_eq; [reflexivity| |].
  - apply (lookup_lt_Some (generators w) r x). exact Hx.
  - apply (lookup_lt_Some (generators w') r x). exact (eq_trans Eg Hx).
Qed.

Lemma gen_send_ex_local r inp w w' :
  agree_on r w w' ->
  (gen_send_ex r inp w').1 = (gen_send_ex r inp w).1 /\
  agree_on r (gen_send_ex r inp w).2 (gen_send_ex r inp w').2.
Proof.
  intros Ha. pose proof Ha as (Ef & Eg).
  unfold_M. rewrite Eg.
  destruct (generators w !! r) as [g|] eqn:Hg; [|split; [reflexivity|exact Ha]].
  cbv beta iota. rewrite ?Ef.
  assert (Hs : is_Some (generators w !! r)) by (rewrite Hg; eauto).
  destruct (gi_running g); [split; [reflexivity|exact Ha]|].
  destruct (gi_frame g) as [f|].
  - destruct (Z.eqb (f_lasti f) (-1)).
    + destruct inp as [v|e].
      * destruct (is_None v); [|split; [reflexivity|exact Ha]].
        cbv beta iota; rewrite ?Ef.
        destruct (co_resume (f_code f) (f_locals f) (_DEBUG w) (RSend v));
          (split; [reflexivity|apply agree_on_store; assumption]).
      * split; [reflexivity|apply agree_on_store; assumption].
    + cbv beta iota; rewrite ?Ef.
      destruct (co_resume (f_code f) (f_locals f) (_DEBUG w) inp);
        (split; [reflexivity|apply agree_on_store; assumption]).
  - destruct inp; (split; [reflexivity|exact Ha]).
Qed.

Lemma on_generator_local r op w w' :
  agree_on r w w' ->
  (on_generator (VGenerator r) op w').1 = (on_generator (VGenerator r) op w).1 /\
  agree_on r (on_generator (VGenerator r) op w).2 (on_generator (VGenerator r) op w').2.
Proof.
  intros Ha.
  assert (Hsend : forall inp,
             (fmap_M AObject (gen_send_ex r inp) w').1
             = (fmap_M AObject (gen_send_ex r inp) w).1 /\
             agree_on r (fmap_M AObject (gen_send_ex r inp) w).2
                        (fmap_M AObject (gen_send_ex r inp) w').2).
  { intros inp. destruct (gen_send_ex_local r inp w w' Ha) as (H1 & H2).
    unfold fmap_M, bind, ret.
    destruct (gen_send_ex r inp w) as [[e1|v1] w1],
             (gen_send_ex r inp w') as [[e2|v2] w2];
      simpl in *; try discriminate; split; congruence. }
  assert (Hread : forall A (m : generator -> A) (f : A -> answer),
             let op := fmap_M f (x <- lookup_generator r ;; ret (m x)) in
             (op w').1 = (op w).1 /\ agree_on r (op w).2 (op w').2).
  { intros A m f. pose proof Ha as (Ef & Eg).
    unfold fmap_M, bind, lookup_generator, ret. rewrite Eg.
    destruct (generators w !! r); simpl; (split; [reflexivity|exact Ha]). }
  destruct op; simpl.
  - apply Hsend.
  - apply Hsend.
  - apply Hsend.
  - destruct (gen_send_ex_local r (RThrow GeneratorExit) w w' Ha) as (H1 & H2).
    unfold fmap_M, bind, ret, gen_close.
    destruct (gen_send_ex r (RThrow GeneratorExit) w) as [[e1|v1] w1],
             (gen_send_ex r (RThrow GeneratorExit) w') as [[e2|v2] w2];
      simpl in *; try discriminate.
    + inversion H1; subst e2.
      destruct (isinstance_StopIteration e1 || is_GeneratorExit e1); simpl;
        (split; [reflexivity|exact H2]).
    + split; [reflexivity|exact H2].
  - apply Hread.
  - apply Hread.
  - apply Hread.
Qed.

Lemma session_local c c' r ops : forall w w',
  denotes c r w -> denotes c' r w' -> agree_on r w w' ->
  (session (on_coroutine c') ops w').1 = (session (on_coroutine c) ops w).1.
Proof.
  induction ops as [|op ops IH]; intros w w' Hd Hd' Ha; simpl; [reflexivity|].
  rewrite (on_coroutine_denotes c r w op Hd).
  rewrite (on_coroutine_denotes c' r w' op Hd').
  destruct (on_generator_local r op w w' Ha) as (H1 & H2).
  destruct (on_generator (VGenerator r) op w) as [res w1] eqn:E1.
  destruct (on_generator (VGenerator r) op w') as [res' w1'] eqn:E1'.
  simpl in H1, H2. subst res'.
  assert (Hd1 : denotes c r w1)
    by (eapply denotes_only; [exact Hd|eapply on_generator_only; exact E1]).
  assert (Hd1' : denotes c' r w1')
    by (eapply denotes_only; [exact Hd'|eapply on_generator_only; exact E1']).
  specialize (IH w1 w1' Hd1 Hd1' H2).
  destruct (session (on_coroutine c) ops w1) as [rs w2].
  destruct (session (on_coroutine c') ops w1') as [rs' w2'].
  simpl in *. congruence.
Qed.

Lemma session_elsewhere c1 c2 r1 r2 w ops1 ops2 :
  denotes c1 r1 w -> denotes c2 r2 w -> r1 <> r2 ->
  (session (on_coroutine c2) ops2 (session (on_coroutine c1) ops1 w).2).1
  = (session (on_coroutine c2) ops2 w).1.
Proof.
  intros Hd1 Hd2 Hne.
  destruct (session (on_coroutine c1) ops1 w) as [rs w'] eqn:E.
  destruct (session_coroutine c1 r1 ops1 w rs w' Hd1 E) as [Ho _].
  simpl. apply (session_local c2 c2 r2); [exact Hd2| |].
  - eapply denotes_only; [exact Hd2|exact Ho].
  - destruct Ho as (Ef & _ & _ & _ & Eg). split; [exact Ef|].
    apply Eg. congruence.
Qed.

Lemma call_coroutine_keeps func wd args stack w c r :
  denotes c r w -> (r < length (generators w))%nat ->
  denotes c r (call (coroutine func wd) args stack w).2.
Proof.
  intros [->|(self & o & -> & Hw & Hg)] Hr; [left; reflexivity|].
  right. exists self, o. split; [reflexivity|]. split; [|exact Hg].
  destruct (_DEBUG wd) eqn:Hd.
  - rewrite (call_coroutine_debug func wd args stack w Hd). simpl.
    rewrite lookup_app_l; [exact Hw|]. eapply lookup_lt_Some; exact Hw.
  - rewrite (call_coroutine_plain func wd args stack w Hd). exact Hw.
Qed.

Lemma denotes_functional c r r' w :
  denotes c r w -> denotes c r' w -> r = r'.
Proof.
  intros [->|(self & o & -> & Hw & Hg)] [E|(self' & o' & E & Hw' & Hg')].
  - congruence.
  - discriminate E.
  - discriminate E.
  - injection E as <-. rewrite Hw in Hw'. injection Hw' as <-.
    rewrite Hg in Hg'. congruence.
Qed.

(** X6: the module adds no state that computations share.  The bodies of
    the model keep their state in their own frame (a plain function is
    given by its result on its arguments, a generator function by what its
    frame does when it is resumed), as functions do that touch no common
    list, dictionary or global.  For such functions two calls of marked
    functions, of the same one or of two, give two distinct objects on
    two distinct generators, and whatever a driver does with one of them
    changes nothing in what any session on the other observes: neither the
    trampoline nor the debug wrapper connects them. *)
Theorem marked_calls_do_not_interfere
    func1 wd1 args1 stack1 func2 wd2 args2 stack2 w ops1 ops2 :
  exists c1 w1 c2 w2,
    call (coroutine func1 wd1) args1 stack1 w = (inr c1, w1) /\
    call (coroutine func2 wd2) args2 stack2 w1 = (inr c2, w2) /\
    c1 <> c2 /\
    denotes c1 (length (generators w)) w2 /\
    denotes c2 (S (length (generators w))) w2 /\
    (session (on_coroutine c2) ops2 (session (on_coroutine c1) ops1 w2).2).1
    = (session (on_coroutine c2) ops2 w2).1 /\
    (session (on_coroutine c1) ops1 (session (on_coroutine c2) ops2 w2).2).1
    = (session (on_coroutine c1) ops1 w2).1.
Proof.
  destruct (call_coroutine_denotes func1 wd1 args1 stack1 w)
    as (c1 & w1 & Hcall1 & _ & Hden1 & Hgens1 & _ & _).
  destruct (call_coroutine_denotes func2 wd2 args2 stack2 w1)
    as (c2 & w2 & Hcall2 & _ & Hden2 & Hgens2 & _ & _).
  exists c1, w1, c2, w2. split; [exact Hcall1|]. split; [exact Hcall2|].
  assert (Hlen : length (generators w1) = S (length (generators w)))
    by (rewrite Hgens1, length_app; simpl; lia).
  assert (Hden1' : denotes c1 (length (generators w)) w2).
  { replace w2 with (call (coroutine func2 wd2) args2 stack2 w1).2
      by (rewrite Hcall2; reflexivity).
    apply call_coroutine_keeps; [exact Hden1|lia]. }
  rewrite Hlen in Hden2.
  split; [|split; [exact Hden1'|split; [exact Hden2|split]]].
  - intros E. subst c2.
    pose proof (denotes_functional _ _ _ _ Hden1' Hden2) as Hr. lia.
  - apply (session_elsewhere c1 c2 (length (generators w)) (S (length (generators w))));
      [exact Hden1'|exact Hden2|lia].
  - apply (session_elsewhere c2 c1 (S (length (generators w))) (length (generators w)));
      [exact Hden2|exact Hden1'|lia].
Qed.

(** X8: a generator function is accepted unchanged.  With the debug flag
    off at decoration, calling the marked function is calling the function:
    the same generator object in the same world.  With the flag on the
    generator is inside a [CoroWrapper], and every driver session on the
    wrapper observes what the same session observes on the generator the
    function itself creates. *)
Theorem generator_function_accepted_unchanged func c wd args stack w ops :
  func_code func = GeneratorCode c ->
  (_DEBUG wd = false -> call (coroutine func wd) args stack w = call_pyfunc func args w) /\
  (observed (coroutine func wd) args stack ops w).2
  = (session (on_generator (VGenerator (length (generators w)))) ops
       (call_pyfunc func args w).2).1.
Proof.
  intros Hf.
  assert (Hcode : code_of func = c) by (unfold code_of; rewrite Hf; reflexivity).
  assert (Hplain : call_pyfunc func args w
                   = (inr (VGenerator (length (generators w))),
                      set_generators
                        (generators w ++ [created_generator (code_of func) args]) w)).
  { unfold call_pyfunc. rewrite Hf, Hcode. reflexivity. }
  split.
  - intros Hd. rewrite Hplain. apply call_coroutine_plain. exact Hd.
  - destruct (call_coroutine_denotes func wd args stack w)
      as (c0 & w1 & Hcall & _ & Hden & Hgens & Hflag & _).
    unfold observed. rewrite Hcall, Hplain. simpl.
    apply (session_local (VGenerator (length (generators w))) c0 (length (generators w))).
    + left. reflexivity.
    + exact Hden.
    + split; [exact Hflag|]. rewrite Hgens. reflexivity.
Qed.

(** *** What marking keeps and what a marked call returns *)

Lemma functools_wraps_fresh wrapped name k :
  __dict__ (functools_wraps wrapped (def_attributes name)) !! k
  = if decide (k = "__wrapped__") then
      if PY3 then
        if wrapped_set_last then Some (AttrFunction wrapped)
        else match __dict__ (func_attrs wrapped) !! "__wrapped__" with
             | Some f => Some f
             | None => Some (AttrFunction wrapped)
             end
      else __dict__ (func_attrs wrapped) !! "__wrapped__"
    else __dict__ (func_attrs wrapped) !! k.
Proof.
  unfold functools_wraps. simpl.
  destruct (decide (k = "__wrapped__")) as [->|Hk].
  - destruct PY3; [destruct wrapped_set_last|].
    + apply lookup_insert_eq.
    + rewrite lookup_union, lookup_insert_eq.
      destruct (__dict__ (func_attrs wrapped) !! "__wrapped__"); reflexivity.
    + apply lookup_union_l. apply lookup_empty.
  - destruct PY3; [destruct wrapped_set_last|].
    + rewrite lookup_insert_ne by congruence. apply lookup_union_l. apply lookup_empty.
    + apply lookup_union_l. rewrite lookup_insert_ne by congruence. apply lookup_empty.
    + apply lookup_union_l. apply lookup_empty.
Qed.

(** X7: marking keeps what the function says about itself.  Whatever
    [coroutine] returns has the name and the documentation of the function
    and every entry of its dictionary, the entries [_is_coroutine] and
    [__wrapped__] apart.  Where a new function was synthesized (the
    trampoline, or the debug wrapper) its entry [__wrapped__] is the
    original function, on Python 2 (by lines 134 and 150) as on Python 3
    (by [functools.wraps]); only on Python 3.2 and 3.3, where
    [functools.wraps] sets the entry before it copies the dictionary, a
    function that has an entry [__wrapped__] of its own passes that one on.
    Where the function itself is returned, the entry is as it was. *)
Theorem coroutine_keeps_metadata func w :
  __name__ (attrs (coroutine func w)) = __name__ (func_attrs func) /\
  __doc__ (attrs (coroutine func w)) = __doc__ (func_attrs func) /\
  (forall k, k <> "_is_coroutine" -> k <> "__wrapped__" ->
     __dict__ (attrs (coroutine func w)) !! k = __dict__ (func_attrs func) !! k) /\
  (inspect_isgeneratorfunction func && negb (_DEBUG w) = false ->
     __dict__ (attrs (coroutine func w)) !! "__wrapped__"
     = if PY3 && negb wrapped_set_last then
         match __dict__ (func_attrs func) !! "__wrapped__" with
         | Some f => Some f
         | None => Some (AttrFunction func)
         end
       else Some (AttrFunction func)) /\
  (inspect_isgeneratorfunction func && negb (_DEBUG w) = true ->
     __dict__ (attrs (coroutine func w)) !! "__wrapped__"
     = __dict__ (func_attrs func) !! "__wrapped__").
Proof.
  assert (Hw : forall name,
             __dict__ (functools_wraps func (def_attributes name)) !! "__wrapped__"
             = if PY3 then
                 if wrapped_set_last then Some (AttrFunction func)
                 else match __dict__ (func_attrs func) !! "__wrapped__" with
                      | Some f => Some f
                      | None => Some (AttrFunction func)
                      end
               else __dict__ (func_attrs func) !! "__wrapped__").
  { intros name. rewrite functools_wraps_fresh.
    destruct (decide ("__wrapped__" = "__wrapped__")); [reflexivity|congruence]. }
  assert (Hk : forall name k, k <> "__wrapped__" ->
             __dict__ (functools_wraps func (def_attributes name)) !! k
             = __dict__ (func_attrs func) !! k).
  { intros name k Hk. rewrite functools_wraps_fresh.
    destruct (decide (k = "__wrapped__")); [congruence|reflexivity]. }
  assert (Hn : forall name, __name__ (functools_wraps func (def_attributes name))
                            = __name__ (func_attrs func)) by reflexivity.
  assert (Hd : forall name, __doc__ (functools_wraps func (def_attributes name))
                            = __doc__ (func_attrs func)) by reflexivity.
  unfold coroutine, inspect_isgeneratorfunction, set___wrapped__.
  destruct (func_code func) as [body|c], (_DEBUG w), PY3;
    cbn [negb andb attrs func_attrs callable_of_pyfunc setattr __dict__ __name__ __doc__];
    (split; [auto|]; split; [auto|]; split;
     [intros k Hk1 Hk2; rewrite !lookup_insert_ne by congruence; auto|];
     split; intros H; try discriminate H;
     rewrite lookup_insert_ne by (intros E; discriminate E);
     rewrite ?lookup_insert_eq; rewrite ?Hw;
     try destruct wrapped_set_last; reflexivity).
Qed.

(** X9: what a marked function returns is a coroutine for [iscoroutine],
    in debug mode or not and whether or not asyncio could be imported; the
    [FromWrapper] a computation yields in debug mode is not one, whatever
    it holds, so a driver has to look into it before it classifies. *)
Theorem marked_call_returns_coroutine func wd args stack w :
  exists c w1,
    call (coroutine func wd) args stack w = (inr c, w1) /\
    iscoroutine c = true /\
    (forall obj, iscoroutine (VFromWrapper obj) = false /\
                 iscoroutine (untag (VFromWrapper obj)) = iscoroutine obj).
Proof.
  destruct (_DEBUG wd) eqn:Hd.
  - eexists _, _. split; [apply call_coroutine_debug; exact Hd|].
    split; [|intros obj; split; [|reflexivity]];
      unfold iscoroutine, isinstance__COROUTINE_TYPES;
      destruct asyncio_is_not_None; reflexivity.
  - eexists _, _. split; [apply call_coroutine_plain; exact Hd|].
    split; [|intros obj; split; [|reflexivity]];
      unfold iscoroutine, isinstance__COROUTINE_TYPES;
      destruct asyncio_is_not_None; reflexivity.
Qed.

(** X12: how a debug call annotates the wrapper it returns.  The call
    creates one generator and one wrapper, both new, and leaves the wrappers
    that existed as they were.  The wrapper holds the new generator and the
    original function, carries the function's name and documentation, and
    its qualified name from Python 3.5 on only.  Its creation traceback is
    the call stack of the caller exactly: the entry of [wrapper]'s own frame
    is gone, also when the caller's stack is empty. *)
Theorem debug_call_annotates_wrapper func wd args stack w :
  _DEBUG wd = true ->
  exists o w1,
    call (coroutine func wd) args stack w
    = (inr (VCoroWrapper (length (wrappers w))), w1) /\
    wrappers w1 = wrappers w ++ [o] /\
    generators w1 = generators w ++ [created_generator (code_of func) args] /\
    CoroWrapper.gen o = Some (VGenerator (length (generators w))) /\
    CoroWrapper.func o = func /\
    CoroWrapper._source_traceback o = stack /\
    CoroWrapper.__name__ o = Some (__name__ (func_attrs func)) /\
    CoroWrapper.__doc__ o = Some (__doc__ (func_attrs func)) /\
    CoroWrapper.__qualname__ o
    = (let (major, minor) := version_info in
       if Nat.ltb 3 major || (Nat.eqb major 3 && Nat.leb 5 minor)
       then Some (__qualname__ (func_attrs func)) else None).
Proof.
  intros Hd. eexists _, _.
  split; [apply call_coroutine_debug; exact Hd|].
  repeat (split; [reflexivity|]).
  unfold created_wrapper, _PY35. simpl. destruct version_info. reflexivity.
Qed.

(** *** More on the tag and the signal *)

Lemma From_untagged DEBUG obj :
  nested_tag obj = false ->
  exists t, From DEBUG obj = inr t /\ nested_tag t = false /\ untag t = untag obj /\
            isinstance_FromWrapper t = (DEBUG || isinstance_FromWrapper obj).
Proof.
  intros Hn. destruct DEBUG; [|exists obj; simpl; auto].
  unfold From, FromWrapper. simpl.
  destruct obj; try (eexists; repeat split; reflexivity).
  simpl in Hn. rewrite Hn. simpl. eexists. repeat split. simpl. exact Hn.
Qed.

(** X10: when [From] fails and what it keeps.  In debug mode [From]
    raises [AssertionError] exactly on a [FromWrapper] that holds a
    [FromWrapper], and otherwise returns a [FromWrapper] around the object,
    or around what the object holds if it is a wrapper already.  Applied any
    number of times to an object that is no such nested wrapper it never
    fails, its result is never nested, and the object the scheduler unwraps
    from the result is the one it would unwrap from the argument; on an
    object that is no wrapper, one application or many give the same single
    wrapper around it. *)
Theorem From_fails_only_on_nested_tags :
  (forall obj,
      From true obj
      = if nested_tag obj then inl (AssertionError VNone)
        else inr (VFromWrapper (untag obj))) /\
  (forall n DEBUG obj,
      nested_tag obj = false ->
      exists t, From_times n DEBUG obj = inr t /\
                nested_tag t = false /\ untag t = untag obj) /\
  (forall n obj,
      isinstance_FromWrapper obj = false ->
      From_times (S n) true obj = inr (VFromWrapper obj)).
Proof.
  split; [|split].
  - intros obj. unfold From, FromWrapper. simpl.
    destruct obj; try reflexivity.
    simpl. destruct (isinstance_FromWrapper obj); reflexivity.
  - induction n as [|n IH]; intros DEBUG obj Hn; simpl.
    + exists obj. auto.
    + destruct (IH DEBUG obj Hn) as (t & Hn' & Ht & Hu).
      destruct (From_untagged DEBUG t Ht) as (t' & Hf & Ht' & Hu' & _).
      exists t'. rewrite Hn'. simpl.
      split; [exact Hf|]. split; [exact Ht'|]. rewrite Hu'. exact Hu.
  - induction n as [|n IH]; intros obj Ho.
    + simpl. unfold From, FromWrapper. destruct obj; try discriminate; reflexivity.
    + change (From_times (S (S n)) true obj)
        with (and_then (From_times (S n) true obj) (From true)).
      rewrite (IH obj Ho). simpl. unfold From, FromWrapper. simpl.
      rewrite Ho. reflexivity.
Qed.

(** X11: which arguments of [Return] a receiver cannot tell apart.  Every
    signal carries a value, and the signal built from that value alone
    carries it too: [Return(a, b, ...)] reads as [Return((a, b, ...))] and
    [Return()] as [Return(None)]. *)
Theorem Return_values_collide :
  (forall args, exists v,
      exn_value (Return args) = Some v /\ exn_value (Return [v]) = Some v) /\
  (forall x y rest,
      exn_value (Return (x :: y :: rest)) = exn_value (Return [VTuple (x :: y :: rest)])) /\
  exn_value (Return []) = exn_value (Return [VNone]).
Proof.
  unfold Return.
  split; [|split].
  - intros [|x [|y rest]]; destruct PY33; eexists; split; reflexivity.
  - intros x y rest. destruct PY33; reflexivity.
  - destruct PY33; reflexivity.
Qed.

(* END-OF-SECTION *)
End Coroutines.


(** ** The theorems at the sample programs *)

(** The marked [add_one] called on 5 and driven to completion ends with 6. *)
Lemma trampoline_result_witness :
  func_code add_one = PlainCode add_one_body /\
  add_one_body ([VInt 5], []) = inr (VInt 6) /\
  isinstance_Future (VInt 6) || inspect_isgenerator (VInt 6) = false /\
  (run_until_complete 1%nat sample_resolve
     (coroutine true true (3%nat, 4%nat) sample_wrapper_frame 7%nat add_one (empty_world false))
     ([VInt 5], []) [sample_caller_frame] (empty_world false)).1
  = (Done (VInt 6), []).
Proof.
  split; [reflexivity|]. split; [reflexivity|]. split; [reflexivity|].
  destruct (trampoline_result true true (3%nat, 4%nat) sample_wrapper_frame 7%nat
              add_one add_one_body (empty_world false) ([VInt 5], [])
              [sample_caller_frame] (empty_world false) (VInt 6) eq_refl eq_refl)
    as (c & w1 & _ & Hplain & _).
  exact (proj2 (proj2 (Hplain eq_refl)) sample_resolve 0%nat).
Defined.

(** The marked [relay], given a future that resolves to ["x"], waits for
    that future once and ends with ["x"]; with the debug flag on as well. *)
Example relay_scenario :
  (run_until_complete 2%nat sample_resolve
     (coroutine true true (3%nat, 4%nat) sample_wrapper_frame 7%nat relay (empty_world false))
     ([VFuture 0%nat], []) [sample_caller_frame] (empty_world false)).1
  = (Done (VStr "x"), [VFuture 0%nat]) /\
  (run_until_complete 2%nat sample_resolve
     (coroutine false false (2%nat, 7%nat) sample_wrapper_frame 7%nat relay (empty_world true))
     ([VFuture 0%nat], []) [sample_caller_frame] (empty_world true)).1
  = (Done (VStr "x"), [VFuture 0%nat]).
Proof. split; vm_compute; reflexivity. Qed.

(** C2, as stated, fails: [relay] marked with the flag off and called on a
    future yields the bare future at the first [next] when the flag is
    still off, and the future inside a [FromWrapper] when the flag was
    turned on before the call. *)
Lemma call_time_flag_counterexample :
  observed (coroutine true true (3%nat, 4%nat) sample_wrapper_frame 7%nat relay (empty_world false))
    ([VFuture 0%nat], []) [sample_caller_frame] [op_next] (empty_world false)
  = (inr (VGenerator 0%nat), [inr (AObject (VFuture 0%nat))]) /\
  observed (coroutine true true (3%nat, 4%nat) sample_wrapper_frame 7%nat relay (empty_world false))
    ([VFuture 0%nat], []) [sample_caller_frame] [op_next] (set__DEBUG true (empty_world false))
  = (inr (VGenerator 0%nat), [inr (AObject (VFromWrapper (VFuture 0%nat)))]) /\
  ~ call_time_flag_is_ignored true true (3%nat, 4%nat) sample_wrapper_frame 7%nat.
Proof.
  split; [vm_compute; reflexivity|]. split; [vm_compute; reflexivity|].
  intros H.
  specialize (H relay (empty_world false) ([VFuture 0%nat], []) [sample_caller_frame]
                [op_next] (empty_world false) true).
  vm_compute in H. discriminate H.
Qed.

(** The amended statement at the generator function [forward], marked
    with the flag off and called on a future, for the session
    [next; send("x")]. *)
Lemma flag_at_call_time_only_tags_witness :
  match func_code (forward true) with
  | GeneratorCode c => exists body, reads_flag_in_From_only c body
  | PlainCode _ => True
  end /\
  exists c w_off w_on,
    call (coroutine true true (3%nat, 4%nat) sample_wrapper_frame 7%nat (forward true)
            (empty_world false))
      ([VFuture 0%nat], []) [sample_caller_frame] (set__DEBUG false (empty_world false))
    = (inr c, w_off) /\
    call (coroutine true true (3%nat, 4%nat) sample_wrapper_frame 7%nat (forward true)
            (empty_world false))
      ([VFuture 0%nat], []) [sample_caller_frame] (set__DEBUG true (empty_world false))
    = (inr c, w_on) /\
    Forall2 tagged_when_set
      (session (on_coroutine c) [op_next; op_send (VStr "x")] w_off).1
      (session (on_coroutine c) [op_next; op_send (VStr "x")] w_on).1 /\
    (forall fuel resolve op,
        (drive fuel resolve c op w_off).1 = (drive fuel resolve c op w_on).1).
Proof.
  assert (Hforward : match func_code (forward true) with
                     | GeneratorCode c => exists body, reads_flag_in_From_only c body
                     | PlainCode _ => True
                     end).
  { exists (forward_step true). intros l inp. split; [reflexivity|].
    destruct l as [fut|]; simpl.
    - destruct inp; [|exact I].
      destruct (isinstance_Future fut) eqn:Hf; [|exact I].
      destruct fut; try discriminate Hf; reflexivity.
    - destruct inp; exact I. }
  split; [exact Hforward|].
  destruct (flag_at_call_time_only_tags true true (3%nat, 4%nat) sample_wrapper_frame 7%nat
              (forward true) (empty_world false) ([VFuture 0%nat], [])
              [sample_caller_frame] (empty_world false) Hforward)
    as (c & w_off & w_on & Hoff & Hon & _ & _ & Hsession & Hdrive & _).
  exists c, w_off, w_on. split; [exact Hoff|]. split; [exact Hon|].
  split; [exact (proj1 (Hsession _))|exact Hdrive].
Defined.

(** [forward] marked with the flag off: what a driver receives with the
    flag off and with the flag on at call time. *)
Example forward_scenario :
  observed (coroutine true true (3%nat, 4%nat) sample_wrapper_frame 7%nat (forward true)
              (empty_world false))
    ([VFuture 0%nat], []) [sample_caller_frame] [op_next; op_send (VStr "x")]
    (empty_world false)
  = (inr (VGenerator 0%nat),
     [inr (AObject (VFuture 0%nat)); inl (StopIteration (VStr "x"))]) /\
  observed (coroutine true true (3%nat, 4%nat) sample_wrapper_frame 7%nat (forward true)
              (empty_world false))
    ([VFuture 0%nat], []) [sample_caller_frame] [op_next; op_send (VStr "x")]
    (empty_world true)
  = (inr (VGenerator 0%nat),
     [inr (AObject (VFromWrapper (VFuture 0%nat))); inl (StopIteration (VStr "x"))]).
Proof. split; vm_compute; reflexivity. Qed.

(** In debug mode a future is tagged once, however often [From] is applied. *)
Lemma From_idempotent_never_nests_witness :
  isinstance_Future (VFuture 0%nat) || inspect_isgenerator (VFuture 0%nat) = true /\
  From true (VFuture 0%nat) = inr (VFromWrapper (VFuture 0%nat)) /\
  and_then (From true (VFuture 0%nat)) (From true) = inr (VFromWrapper (VFuture 0%nat)).
Proof.
  split; [reflexivity|].
  exact (proj1 (proj2 From_idempotent_never_nests) true (VFuture 0%nat) eq_refl).
Defined.

(** [traced] was never passed to [coroutine], and [iscoroutinefunction]
    is true of it: the classifier has false positives. *)
Lemma iscoroutinefunction_false_positive :
  ~ no_false_positives true true (3%nat, 4%nat) sample_wrapper_frame 7%nat.
Proof.
  intros [_ H].
  specialize (H (traced true (3%nat, 4%nat))).
  assert (Hn : ~ produced_by_coroutine true true (3%nat, 4%nat) sample_wrapper_frame 7%nat
                 (traced true (3%nat, 4%nat))).
  { intros (func & w & E).
    apply (f_equal (fun f => call f ([], []) [] (empty_world false))) in E.
    destruct (call_coroutine_denotes true true (3%nat, 4%nat) sample_wrapper_frame 7%nat
                func w ([], []) [] (empty_world false))
      as (c & w1 & Hcall & _ & _ & Hg & _).
    rewrite Hcall in E. inversion E; subst w1. discriminate Hg. }
  specialize (H Hn). discriminate H.
Qed.

(** The unmarked [add_one] is not a coroutine function. *)
Lemma iscoroutinefunction_reads_attribute_witness :
  __dict__ (attrs (callable_of_pyfunc add_one)) !! "_is_coroutine" = None /\
  iscoroutinefunction (callable_of_pyfunc add_one) = AttrObject (VBool false).
Proof.
  split; [reflexivity|].
  exact (proj1 (proj2 (iscoroutinefunction_reads_attribute true true (3%nat, 4%nat)
                         sample_wrapper_frame 7%nat))
           (callable_of_pyfunc add_one) eq_refl).
Defined.

(** After its first [next], [send()] on the wrapper of the sample world
    returns the next item of [countdown(2)], where [send()] on the generator
    raises [TypeError]: a driver can tell the wrapper from the generator. *)
Lemma send_without_argument_tells_wrapper : ~ transparent_proxy.
Proof.
  intros H.
  specialize (H 0%nat sample_wrapper 0%nat (on_CoroWrapper 0%nat op_next sample_world).2
                (call_send []) eq_refl eq_refl).
  apply (f_equal fst) in H. vm_compute in H. discriminate H.
Qed.

Example send_without_argument_after_next :
  (CoroWrapper_method 0%nat (call_send []) (on_CoroWrapper 0%nat op_next sample_world).2).1
  = inr (AObject (VInt 1)) /\
  (generator_method (VGenerator 0%nat) (call_send [])
     (on_CoroWrapper 0%nat op_next sample_world).2).1
  = inl (TypeError "send() takes exactly one argument").
Proof. split; vm_compute; reflexivity. Qed.

(** The wrapper of the sample world forwards to its [countdown(2)]. *)
Lemma CoroWrapper_proxy_at_protocol_arity_witness :
  wrappers sample_world !! 0%nat = Some sample_wrapper /\
  CoroWrapper.gen sample_wrapper = Some (VGenerator 0%nat) /\
  (forall c, protocol_arity c = true ->
      CoroWrapper_method 0%nat c sample_world
      = generator_method (VGenerator 0%nat) c sample_world) /\
  (forall calls, forallb protocol_arity calls = true ->
      session (CoroWrapper_method 0%nat) calls sample_world
      = session (generator_method (VGenerator 0%nat)) calls sample_world).
Proof.
  split; [reflexivity|]. split; [reflexivity|].
  destruct (CoroWrapper_proxy_at_protocol_arity 0%nat sample_wrapper 0%nat sample_world
              eq_refl eq_refl) as (H1 & H2 & _).
  split; [exact H1|exact H2].
Defined.

(** The arity rule of [send] at the wrapper of the sample world. *)
Lemma CoroWrapper_send_arity_witness :
  wrappers sample_world !! 0%nat = Some sample_wrapper /\
  CoroWrapper.gen sample_wrapper = Some (VGenerator 0%nat) /\
  CoroWrapper_send 0%nat [] sample_world = gen_send_ex 0%nat (RSend (VTuple [])) sample_world /\
  (forall v, CoroWrapper_send 0%nat [v] sample_world = gen_send_ex 0%nat (RSend v) sample_world) /\
  (forall x y rest,
      CoroWrapper_send 0%nat (x :: y :: rest) sample_world
      = gen_send_ex 0%nat (RSend (VTuple (x :: y :: rest))) sample_world) /\
  CoroWrapper___next__ 0%nat sample_world = gen_send_ex 0%nat (RSend VNone) sample_world.
Proof.
  split; [reflexivity|]. split; [reflexivity|].
  exact (CoroWrapper_send_arity 0%nat sample_wrapper 0%nat sample_world eq_refl eq_refl).
Defined.

(** On a generator that has not started, [send()] through the wrapper is
    refused, where [next] runs the body to its first [yield]. *)
Example send_without_argument_is_not_next :
  (CoroWrapper_send 0%nat [] sample_world).1
  = inl (TypeError "can't send non-None value to a just-started generator") /\
  (CoroWrapper___next__ 0%nat sample_world).1 = inr (VInt 2).
Proof. split; vm_compute; reflexivity. Qed.

(** [relay] marked in debug mode and called on a pending future: the
    record of the dropped computation names [relay] and the caller. *)
Lemma CoroWrapper_del_diagnostic_witness :
  _DEBUG (empty_world true) = true /\
  contains "relay" (sample_format_callback relay []) /\
  exists self w1 d,
    call (coroutine true true (3%nat, 4%nat) sample_wrapper_frame 7%nat relay (empty_world true))
      ([VFuture 0%nat], []) [sample_caller_frame] (empty_world false)
    = (inr (VCoroWrapper self), w1) /\
    contains "relay" (msg d) /\
    contains "<module>" (msg d) /\
    CoroWrapper___del__ sample_format_callback sample_format_list sample_rstrip self w1
    = (inr tt, set_log (log w1 ++ [d]) w1) /\
    (forall ops rs w2,
        existsb leaves_entry_point ops = true ->
        session (on_coroutine (VCoroWrapper self)) ops w1 = (rs, w2) ->
        CoroWrapper___del__ sample_format_callback sample_format_list sample_rstrip self w2
        = (inr tt, w2)).
Proof.
  assert (Hname : contains "relay" (sample_format_callback relay []))
    by (exists EmptyString, "()"%string; reflexivity).
  split; [reflexivity|]. split; [exact Hname|].
  destruct (CoroWrapper_del_diagnostic true true (3%nat, 4%nat) sample_format_callback
              sample_format_list sample_rstrip sample_wrapper_frame 7%nat relay
              (empty_world true) ([VFuture 0%nat], []) [sample_caller_frame]
              (empty_world false) eq_refl)
    as (self & w1 & d & Hcall & _ & _ & _ & _ & Htb & Hn & Hentry & Hleft & _).
  exists self, w1, d. split; [exact Hcall|]. split; [exact (Hn Hname)|].
  split; [exact Htb|]. split; [|exact Hleft].
  exact (proj2 (Hentry [] [] w1 eq_refl eq_refl)).
Defined.

(** A marked generator function: [countdown(2)] yields 2 and 1 and then
    ends; resuming it once more raises [StopIteration] again.  The results
    are the same with the decorator run in debug mode. *)
Example countdown_scenario :
  observed (coroutine true true (3%nat, 4%nat) sample_wrapper_frame 7%nat countdown
              (empty_world false))
    ([VInt 2], []) [sample_caller_frame] [op_next; op_next; op_next; op_next]
    (empty_world false)
  = (inr (VGenerator 0%nat),
     [inr (AObject (VInt 2)); inr (AObject (VInt 1));
      inl (StopIteration VNone); inl (StopIteration VNone)]) /\
  observed (coroutine true true (3%nat, 4%nat) sample_wrapper_frame 7%nat countdown
              (empty_world true))
    ([VInt 2], []) [sample_caller_frame] [op_next; op_next; op_next; op_next]
    (empty_world false)
  = (inr (VCoroWrapper 0%nat),
     [inr (AObject (VInt 2)); inr (AObject (VInt 1));
      inl (StopIteration VNone); inl (StopIteration VNone)]).
Proof. split; vm_compute; reflexivity. Qed.

(** The scenario of a computation created in debug mode and dropped: one
    record is logged, and its message names [relay] and the creation site. *)
Example dropped_relay_scenario :
  let f := coroutine true true (3%nat, 4%nat) sample_wrapper_frame 7%nat relay (empty_world true) in
  let w1 := (call f ([VFuture 0%nat], []) [sample_caller_frame] (empty_world true)).2 in
  map msg (log (CoroWrapper___del__ sample_format_callback sample_format_list
                  sample_rstrip 0%nat w1).2)
  = ["Coroutine relay() was never yielded from" ++ newline ++
     "Coroutine object created at (most recent call last):" ++ newline ++
     "<module>"]%string.
Proof. vm_compute. reflexivity. Qed.

(** ** The further properties at the sample programs *)

Local Abbreviation marked := (coroutine true true (3%nat, 4%nat) sample_wrapper_frame 7%nat).
Local Abbreviation del := (CoroWrapper___del__ sample_format_callback sample_format_list
                         sample_rstrip).

(** [add_one] marked and called without an argument: the call succeeds and
    the [TypeError] of the function comes out of the first [next]. *)
Lemma trampoline_propagates_failures_witness :
  func_code add_one = PlainCode add_one_body /\
  exists c w1,
    call (marked add_one (empty_world false)) ([], []) [sample_caller_frame]
      (empty_world false) = (inr c, w1) /\
    log w1 = log (empty_world false) /\
    (forall e, add_one_body ([], []) = inl e -> (on_coroutine c op_next w1).1 = inl e) /\
    (forall e, (on_coroutine c (op_throw e) w1).1 = inl e) /\
    (forall res,
        add_one_body ([], []) = inr res ->
        isinstance_Future res || inspect_isgenerator res = true ->
        exists item w2,
          on_coroutine c op_next w1 = (inr (AObject item), w2) /\
          forall e, (on_coroutine c (op_throw e) w2).1 = inl e).
Proof.
  split; [reflexivity|].
  exact (trampoline_propagates_failures true true (3%nat, 4%nat) sample_wrapper_frame
           7%nat add_one add_one_body (empty_world false) ([], [])
           [sample_caller_frame] (empty_world false) eq_refl).
Defined.

Example add_one_without_argument :
  observed (marked add_one (empty_world false)) ([], []) [sample_caller_frame]
    [op_next; op_next] (empty_world false)
  = (inr (VGenerator 0%nat),
     [inl (TypeError "add_one() takes exactly 1 argument"); inl (StopIteration VNone)]).
Proof. vm_compute. reflexivity. Qed.

(** A session on the marked [relay] that resumes five times suspends once. *)
Lemma trampoline_suspends_at_most_once_witness :
  func_code relay = PlainCode relay_body /\
  exists c w1,
    call (marked relay (empty_world true)) ([VFuture 0%nat], []) [sample_caller_frame]
      (empty_world true) = (inr c, w1) /\
    (suspensions [op_send (VInt 1); op_next; op_next; op_send (VInt 2); op_throw GeneratorExit]
       (session (on_coroutine c)
          [op_send (VInt 1); op_next; op_next; op_send (VInt 2); op_throw GeneratorExit]
          w1).1 <= 1)%nat.
Proof.
  split; [reflexivity|].
  exact (trampoline_suspends_at_most_once true true (3%nat, 4%nat) sample_wrapper_frame
           7%nat relay relay_body (empty_world true) ([VFuture 0%nat], [])
           [sample_caller_frame] (empty_world true)
           [op_send (VInt 1); op_next; op_next; op_send (VInt 2); op_throw GeneratorExit]
           eq_refl).
Defined.

Example relay_session :
  observed (marked relay (empty_world true)) ([VFuture 0%nat], []) [sample_caller_frame]
    [op_send (VInt 1); op_next; op_next; op_send (VInt 2)] (empty_world true)
  = (inr (VCoroWrapper 0%nat),
     [inl (TypeError "can't send non-None value to a just-started generator");
      inr (AObject (VFromWrapper (VFuture 0%nat)));
      inl (StopIteration VNone);
      inl (StopIteration VNone)]).
Proof. vm_compute. reflexivity. Qed.

(** The wrapper of the sample world, whose [countdown(2)] has not started. *)
Lemma destruction_before_first_resume_witness :
  wrappers sample_world !! 0%nat = Some sample_wrapper /\
  CoroWrapper.gen sample_wrapper = Some (VGenerator 0%nat) /\
  never_started 0%nat sample_world /\
  (forall v, is_None v = false ->
     on_CoroWrapper 0%nat (op_send v) sample_world
     = (inl (TypeError "can't send non-None value to a just-started generator"),
        sample_world)) /\
  del 0%nat (on_CoroWrapper 0%nat op_close sample_world).2
  = (inr tt, (on_CoroWrapper 0%nat op_close sample_world).2).
Proof.
  assert (Hn : never_started 0%nat sample_world).
  { eexists _, _. split; [reflexivity|]. split; [reflexivity|].
    split; reflexivity. }
  split; [reflexivity|]. split; [reflexivity|]. split; [exact Hn|].
  destruct (destruction_before_first_resume sample_format_callback sample_format_list
              sample_rstrip 0%nat sample_wrapper 0%nat sample_world eq_refl eq_refl Hn)
    as (_ & Hsend & _ & _ & _ & Hclose).
  split; [exact Hsend|exact Hclose].
Defined.

(** In the sample world, where the one wrapper wraps the one generator,
    [__del__] returns normally. *)
Lemma del_only_logs_witness :
  wrappers_ok sample_world /\
  wrappers sample_world !! 0%nat = Some sample_wrapper /\
  (del 0%nat sample_world).1 = inr tt.
Proof.
  assert (Hok : wrappers_ok sample_world).
  { intros self o H. destruct self as [|self]; simpl in H; [|discriminate H].
    injection H as <-. exists 0%nat. split; [reflexivity|simpl; lia]. }
  split; [exact Hok|]. split; [reflexivity|].
  exact (proj1 (proj2 (del_only_logs sample_format_callback sample_format_list
                         sample_rstrip 0%nat sample_world))
           Hok sample_wrapper eq_refl).
Defined.

(** The invariant from the empty world through a debug call, and what it
    gives for the wrapper the call created. *)
Lemma wrappers_always_wrap_generators_witness :
  wrappers_ok (empty_world true) /\
  wrappers_ok (call (marked countdown (empty_world true)) ([VInt 2], [])
                 [sample_caller_frame] (empty_world true)).2 /\
  wrappers (call (marked countdown (empty_world true)) ([VInt 2], [])
              [sample_caller_frame] (empty_world true)).2 !! 0%nat
  = Some (created_wrapper (3%nat, 4%nat) 0%nat countdown [sample_caller_frame]) /\
  exists r g,
    generators (call (marked countdown (empty_world true)) ([VInt 2], [])
                  [sample_caller_frame] (empty_world true)).2 !! r = Some g /\
    forall op,
      on_CoroWrapper 0%nat op
        (call (marked countdown (empty_world true)) ([VInt 2], [])
           [sample_caller_frame] (empty_world true)).2
      = on_generator (VGenerator r) op
          (call (marked countdown (empty_world true)) ([VInt 2], [])
             [sample_caller_frame] (empty_world true)).2.
Proof.
  destruct (wrappers_always_wrap_generators true true (3%nat, 4%nat)
              sample_format_callback sample_format_list sample_rstrip
              sample_wrapper_frame 7%nat)
    as (Hempty & _ & Hcall & _ & _ & Hfw).
  pose proof (Hcall countdown (empty_world true) ([VInt 2], []) [sample_caller_frame]
                (empty_world true) (Hempty true)) as Hok.
  split; [exact (Hempty true)|]. split; [exact Hok|]. split; [reflexivity|].
  exact (Hfw 0%nat _ _ Hok eq_refl).
Defined.

(** The trampoline of the marked [add_one] refers to [add_one]. *)
Lemma coroutine_keeps_metadata_witness :
  inspect_isgeneratorfunction add_one && negb (_DEBUG (empty_world false)) = false /\
  __dict__ (attrs (marked add_one (empty_world false))) !! "__wrapped__"
  = Some (AttrFunction add_one).
Proof.
  split; [reflexivity|].
  exact (proj1 (proj2 (proj2 (proj2
           (coroutine_keeps_metadata true true (3%nat, 4%nat) sample_wrapper_frame
              7%nat add_one (empty_world false))))) eq_refl).
Defined.

(** [countdown] marked in debug mode: a session on the wrapper observes
    what it observes on the generator of [countdown(2)]. *)
Lemma generator_function_accepted_unchanged_witness :
  func_code countdown = GeneratorCode countdown_code /\
  (observed (marked countdown (empty_world true)) ([VInt 2], []) [sample_caller_frame]
     [op_next; op_gi_running; op_next; op_close] (empty_world false)).2
  = (session (on_generator (VGenerator 0%nat)) [op_next; op_gi_running; op_next; op_close]
       (call_pyfunc countdown ([VInt 2], []) (empty_world false)).2).1.
Proof.
  split; [reflexivity|].
  exact (proj2 (generator_function_accepted_unchanged true true (3%nat, 4%nat)
                  sample_wrapper_frame 7%nat countdown countdown_code (empty_world true)
                  ([VInt 2], []) [sample_caller_frame] (empty_world false)
                  [op_next; op_gi_running; op_next; op_close] eq_refl)).
Defined.

(** Three applications of [From] to a future in debug mode tag it once. *)
Lemma From_fails_only_on_nested_tags_witness :
  isinstance_FromWrapper (VFuture 0%nat) = false /\
  From_times 3 true (VFuture 0%nat) = inr (VFromWrapper (VFuture 0%nat)).
Proof.
  split; [reflexivity|].
  exact (proj2 (proj2 From_fails_only_on_nested_tags) 2%nat (VFuture 0%nat) eq_refl).
Defined.

(** [relay] marked in debug mode and called from the sample caller. *)
Lemma debug_call_annotates_wrapper_witness :
  _DEBUG (empty_world true) = true /\
  exists o w1,
    call (marked relay (empty_world true)) ([VFuture 0%nat], []) [sample_caller_frame]
      (empty_world false)
    = (inr (VCoroWrapper (length (wrappers (empty_world false)))), w1) /\
    wrappers w1 = wrappers (empty_world false) ++ [o] /\
    generators w1
    = generators (empty_world false)
      ++ [created_generator (code_of true 7%nat relay) ([VFuture 0%nat], [])] /\
    CoroWrapper.gen o = Some (VGenerator (length (generators (empty_world false)))) /\
    CoroWrapper.func o = relay /\
    CoroWrapper._source_traceback o = [sample_caller_frame] /\
    CoroWrapper.__name__ o = Some (__name__ (func_attrs relay)) /\
    CoroWrapper.__doc__ o = Some (__doc__ (func_attrs relay)) /\
    CoroWrapper.__qualname__ o
    = (let (major, minor) := (3%nat, 4%nat) in
       if Nat.ltb 3 major || (Nat.eqb major 3 && Nat.leb 5 minor)
       then Some (__qualname__ (func_attrs relay)) else None).
Proof.
  split; [reflexivity|].
  exact (debug_call_annotates_wrapper true true (3%nat, 4%nat) sample_wrapper_frame 7%nat
           relay (empty_world true) ([VFuture 0%nat], []) [sample_caller_frame]
           (empty_world false) eq_refl).
Defined.
